(** * Calling hero sample: client side effects and file-exchange backend

    A shallow embedding of
    - [src/Calling/ClientApp/src/core/sideEffects.ts], the redux thunks and
      SDK event handlers of the calling client (module [SideEffects]), and
    - the express backend that serves the file routes (module [Server]),
    followed by the properties proved about them.

    Asynchronous code is embedded in a small monad that threads the redux
    store and an ordered trace of the observable effects (dispatches, SDK
    calls, console output, network requests); a rejected promise that is
    awaited is an exception of that monad. *)

From stdpp Require Import base strings list gmap.
From Stdlib Require Import ZArith Lia Permutation Sorted.
From Stdlib.Strings Require Import Ascii Byte.

Local Open Scope string_scope.
Local Open Scope list_scope.
Local Open Scope nat_scope.

(* ===================================================================== *)
(** ** Client: [sideEffects.ts]                                           *)
(* ===================================================================== *)

Module SideEffects.

(** *** SDK objects *)

(** A settled promise of the SDK or of [fetch]. *)
Inductive Settled (A : Type) : Type :=
| Fulfilled (a : A)
| Rejected (reason : string).
Arguments Fulfilled {A} a.
Arguments Rejected {A} reason.

Record RemoteParticipant := {
  identifier : string;
  participantState : string;
  isSpeaking : bool
}.

(** [Call] objects are compared by reference in the source
    ([state.calls.call === removedCall]); [callRef] is that identity. *)
Record Call := {
  callRef : nat;
  isIncoming : bool;
  callState : string;
  isScreenSharingOn : bool;
  remoteParticipants : list RemoteParticipant
}.

Record AudioDeviceInfo := { audioName : string; audioId : string }.
Record VideoDeviceInfo := { videoName : string; videoId : string }.

(** The promise-returning methods of a [Call] used by the thunks. *)
Inductive CallMethod := Unmute | Mute | StartScreenSharing | StopScreenSharing.

(** The device manager as the thunks use it: [getMicrophoneList] is awaited,
    [getCameraList] is read synchronously (line 308). *)
Record DeviceManager := {
  getMicrophoneList : Settled (list AudioDeviceInfo);
  getCameraList : list VideoDeviceInfo
}.

(** What the outside world answers: the SDK's call methods, [fetch],
    [response.blob()] and [URL.createObjectURL]. *)
Record World := {
  callMethod : Call → CallMethod → Settled unit;
  fetch : string → string → Settled nat;
  responseBlob : nat → Settled nat;
  createObjectURL : nat → string
}.

(** *** The store *)

(** Modelled from the spec: the [State] type is declared in [./reducers],
    which is not part of the sources.  The fields are those the thunks read
    ([state.calls.call], [state.calls.attempts], [state.calls.group],
    [state.controls.mic], [state.controls.shareScreen],
    [state.devices.audioDeviceInfo], [state.devices.videoDeviceInfo],
    [state.sdk.userId], [state.files.files]) and those the dispatched
    actions fill (spec, section 3, "Store snapshot"). *)
Record CallsState := {
  call : option Call;
  trackedCallState : string;
  participants : list RemoteParticipant;
  attempts : nat;
  group : string
}.

Record ControlsState := { mic : bool; shareScreen : bool }.

Record DevicesState := {
  audioDeviceInfo : option AudioDeviceInfo;
  audioDeviceList : list AudioDeviceInfo;
  videoDeviceInfo : option VideoDeviceInfo;
  videoDeviceList : list VideoDeviceInfo
}.

Record FileRecord := {
  filename : string;
  blobUrl : option string;
  isDownloading : bool
}.

Record State := {
  calls : CallsState;
  controls : ControlsState;
  devices : DevicesState;
  files : gmap string FileRecord;
  screenShareStreams : list string;
  userId : option string
}.

(** The actions the embedded thunks dispatch (creators imported from
    [./actions/*]).  [SetVideoDeviceInfo] carries an option because
    [cameraList[0]] is [undefined] on an empty array. *)
Inductive Action :=
| CallAdded (c : Call)
| CallRemoved (c : Call) (g : string)
| SetCallState (s : string)
| SetParticipants (ps : list RemoteParticipant)
| CallRetried (n : nat)
| SetMic (b : bool)
| SetShareScreen (b : bool)
| ResetControls
| ResetStreams
| SetAudioDeviceInfo (d : AudioDeviceInfo)
| SetAudioDeviceList (l : list AudioDeviceInfo)
| SetVideoDeviceInfo (d : option VideoDeviceInfo)
| SetVideoDeviceList (l : list VideoDeviceInfo)
| SetFileBlobUrl (fileId url : string)
| SetFileIsDownloading (fileId : string) (b : bool).

Definition withCall (f : CallsState → CallsState) (s : State) : State :=
  {| calls := f (calls s); controls := controls s; devices := devices s;
     files := files s; screenShareStreams := screenShareStreams s;
     userId := userId s |}.

Definition withControls (c : ControlsState) (s : State) : State :=
  {| calls := calls s; controls := c; devices := devices s;
     files := files s; screenShareStreams := screenShareStreams s;
     userId := userId s |}.

Definition withDevices (d : DevicesState) (s : State) : State :=
  {| calls := calls s; controls := controls s; devices := d;
     files := files s; screenShareStreams := screenShareStreams s;
     userId := userId s |}.

Definition withFiles (fs : gmap string FileRecord) (s : State) : State :=
  {| calls := calls s; controls := controls s; devices := devices s;
     files := fs; screenShareStreams := screenShareStreams s;
     userId := userId s |}.

Definition withStreams (l : list string) (s : State) : State :=
  {| calls := calls s; controls := controls s; devices := devices s;
     files := files s; screenShareStreams := l; userId := userId s |}.

(** Modelled from the spec: the reducers of [./reducers] are not part of
    the sources.  Each action replaces the subtree it names and nothing else
    (spec, section 3: "every mutation replaces the relevant subtree");
    [CallRemoved] clears the call subtree (section 4.1).  The values
    [ResetControls] restores are not given by the spec; both flags are taken
    to be off.  A file action on an id that is not listed changes nothing. *)
Definition reducer (s : State) (a : Action) : State :=
  match a with
  | CallAdded c =>
      withCall (λ cs, {| call := Some c; trackedCallState := trackedCallState cs;
                         participants := participants cs;
                         attempts := attempts cs; group := group cs |}) s
  | CallRemoved _ g =>
      withCall (λ cs, {| call := None; trackedCallState := "None";
                         participants := []; attempts := attempts cs;
                         group := g |}) s
  | SetCallState st =>
      withCall (λ cs, {| call := call cs; trackedCallState := st;
                         participants := participants cs;
                         attempts := attempts cs; group := group cs |}) s
  | SetParticipants ps =>
      withCall (λ cs, {| call := call cs; trackedCallState := trackedCallState cs;
                         participants := ps;
                         attempts := attempts cs; group := group cs |}) s
  | CallRetried n =>
      withCall (λ cs, {| call := call cs; trackedCallState := trackedCallState cs;
                         participants := participants cs;
                         attempts := n; group := group cs |}) s
  | SetMic b =>
      withControls {| mic := b; shareScreen := shareScreen (controls s) |} s
  | SetShareScreen b =>
      withControls {| mic := mic (controls s); shareScreen := b |} s
  | ResetControls =>
      withControls {| mic := false; shareScreen := false |} s
  | ResetStreams => withStreams [] s
  | SetAudioDeviceInfo d =>
      withDevices {| audioDeviceInfo := Some d;
                     audioDeviceList := audioDeviceList (devices s);
                     videoDeviceInfo := videoDeviceInfo (devices s);
                     videoDeviceList := videoDeviceList (devices s) |} s
  | SetAudioDeviceList l =>
      withDevices {| audioDeviceInfo := audioDeviceInfo (devices s);
                     audioDeviceList := l;
                     videoDeviceInfo := videoDeviceInfo (devices s);
                     videoDeviceList := videoDeviceList (devices s) |} s
  | SetVideoDeviceInfo d =>
      withDevices {| audioDeviceInfo := audioDeviceInfo (devices s);
                     audioDeviceList := audioDeviceList (devices s);
                     videoDeviceInfo := d;
                     videoDeviceList := videoDeviceList (devices s) |} s
  | SetVideoDeviceList l =>
      withDevices {| audioDeviceInfo := audioDeviceInfo (devices s);
                     audioDeviceList := audioDeviceList (devices s);
                     videoDeviceInfo := videoDeviceInfo (devices s);
                     videoDeviceList := l |} s
  | SetFileBlobUrl fileId url =>
      withFiles (alter (λ f, {| filename := filename f; blobUrl := Some url;
                                isDownloading := isDownloading f |})
                       fileId (files s)) s
  | SetFileIsDownloading fileId b =>
      withFiles (alter (λ f, {| filename := filename f; blobUrl := blobUrl f;
                                isDownloading := b |})
                       fileId (files s)) s
  end.

(** *** Effects *)

(** The observable effects of a thunk, in program order. *)
Inductive Event :=
| Dispatched (a : Action)
| ConsoleError (msg : string)
| ConsoleLog (msg : string)
| CallInvoked (c : Call) (m : CallMethod)
| CallRejected (c : Call)
| CallOn (c : Call) (event : string)
| ParticipantOn (p : RemoteParticipant) (event : string)
| MicrophoneListRequested
| CameraListRequested
| SetMicrophoneInvoked (d : AudioDeviceInfo)
| FetchIssued (url authorization : string).

Record Machine := { store : State; trace : list Event }.

Inductive Result (A : Type) : Type :=
| Returned (a : A)
| Threw (reason : string).
Arguments Returned {A} a.
Arguments Threw {A} reason.

Definition M (A : Type) : Type := Machine → Result A * Machine.

Definition ret {A} (a : A) : M A := λ m, (Returned a, m).

Definition bind {A B} (c : M A) (k : A → M B) : M B :=
  λ m, match c m with
       | (Returned a, m') => k a m'
       | (Threw e, m') => (Threw e, m')
       end.

(** [M] is a monad in stdpp's sense, which gives the [x ← c; k] and
    [c;; k] notations for sequencing. *)
#[global] Instance M_ret : MRet M := @ret.
#[global] Instance M_bind : MBind M := λ A B k c, bind c k.

Definition emit (e : Event) : M unit :=
  λ m, (Returned tt, {| store := store m; trace := (trace m ++ [e]) |}).

(** [getState()] *)
Definition getState : M State := λ m, (Returned (store m), m).

(** [dispatch(action)]: the store is reduced synchronously. *)
Definition dispatch (a : Action) : M unit :=
  λ m, (Returned tt, {| store := reducer (store m) a;
                        trace := (trace m ++ [Dispatched a]) |}).

(** [await p] for an already issued request [p]. *)
Definition await {A} (p : Settled A) : M A :=
  λ m, match p with
       | Fulfilled a => (Returned a, m)
       | Rejected e => (Threw e, m)
       end.

(** [try { body } catch (e) { handler(e) }] *)
Definition tryCatch {A} (body : M A) (handler : string → M A) : M A :=
  λ m, match body m with
       | (Returned a, m') => (Returned a, m')
       | (Threw e, m') => handler e m'
       end.

(** [xs.forEach(f)] *)
Fixpoint forEach {A} (xs : list A) (f : A → M unit) : M unit :=
  match xs with
  | [] => ret tt
  | x :: xs' => f x;; forEach xs' f
  end.

(** Run a thunk on a store, starting from an empty trace. *)
Definition run {A} (c : M A) (s : State) : Result A * Machine :=
  c {| store := s; trace := [] |}.

(** *** Thunks *)

(** The two predicates of [../Utils/Utils] the device thunks call.  The file
    is not part of the sources, so they are parameters of the thunks. *)
Record Utils := {
  isSelectedAudioDeviceInList : AudioDeviceInfo → list AudioDeviceInfo → bool;
  isSelectedVideoDeviceInList : VideoDeviceInfo → list VideoDeviceInfo → bool
}.

Section Thunks.
Variable world : World.
Variable utils : Utils.

(** [setMicrophone] (lines 35-56).  [getState()] always yields a store, so
    of the guard [state === undefined || state.calls.call === undefined]
    only the second disjunct can fire. *)
Definition setMicrophone (micArg : bool) : M unit :=
  state ← getState;
  match call (calls state) with
  | None => emit (ConsoleError "state or state.controls.mic is null")
  | Some c =>
      tryCatch
        ((if negb (mic (controls state))
          then emit (CallInvoked c Unmute);; await (callMethod world c Unmute)
          else emit (CallInvoked c Mute);; await (callMethod world c Mute));;
         dispatch (SetMic micArg))
        (λ e, emit (ConsoleError e))
  end.

(** [setShareUnshareScreen] (lines 58-79). *)
Definition setShareUnshareScreen (shareArg : bool) : M unit :=
  state ← getState;
  match call (calls state) with
  | None => emit (ConsoleError "state or state.controls.shareScreen is null")
  | Some c =>
      tryCatch
        ((if negb (shareScreen (controls state))
          then emit (CallInvoked c StartScreenSharing);;
               await (callMethod world c StartScreenSharing)
          else emit (CallInvoked c StopScreenSharing);;
               await (callMethod world c StopScreenSharing));;
         dispatch (SetShareScreen shareArg))
        (λ e, emit (ConsoleError e))
  end.

(** [subscribeToParticipant] (lines 223-257): three handler registrations on
    the participant; nothing is dispatched at registration time. *)
Definition subscribeToParticipant (participant : RemoteParticipant)
    (c : Call) : M unit :=
  emit (ParticipantOn participant "participantStateChanged");;
  emit (ParticipantOn participant "isSpeakingChanged");;
  emit (ParticipantOn participant "videoStreamsUpdated").

(** The body of [e.added.forEach] in the [callsUpdated] handler
    (lines 147-182).  A [Call] object is truthy, so [state.calls.call &&
    addedCall.isIncoming] holds exactly when a call is tracked and the added
    one is incoming. *)
Definition onCallAdded (addedCall : Call) : M unit :=
  state ← getState;
  if bool_decide (is_Some (call (calls state))) && isIncoming addedCall
  then emit (CallRejected addedCall)
  else
    dispatch (CallAdded addedCall);;
    emit (CallOn addedCall "callStateChanged");;
    emit (CallOn addedCall "isScreenSharingOnChanged");;
    emit (CallOn addedCall "remoteParticipantsUpdated");;
    let rp := remoteParticipants addedCall in
    forEach rp (λ v, subscribeToParticipant v addedCall);;
    dispatch (SetParticipants rp);;
    dispatch (SetCallState (callState addedCall)).

(** The body of [e.removed.forEach] (lines 183-193).  The counter is a
    natural number: [attempts + 1] is the source's sum as long as it stays
    below 2^53, where JavaScript numbers stop counting by one. *)
Definition onCallRemoved (removedCall : Call) : M unit :=
  state ← getState;
  dispatch (CallRetried (attempts (calls state) + 1));;
  match call (calls state) with
  | Some c =>
      if bool_decide (callRef c = callRef removedCall)
      then dispatch (CallRemoved removedCall (group (calls state)));;
           dispatch ResetControls;;
           dispatch ResetStreams
      else ret tt
  | None => ret tt
  end.

(** One [callsUpdated] event of the call agent (lines 146-194). *)
Record CallsUpdated := { added : list Call; removed : list Call }.

Definition callsUpdated (e : CallsUpdated) : M unit :=
  forEach (added e) onCallAdded;;
  forEach (removed e) onCallRemoved.

(** [updateAudioDevices] (lines 259-273).  With no selection and an empty
    list the first condition fails on the length and the second on its first
    conjunct, so nothing more happens. *)
Definition updateAudioDevices (deviceManager : DeviceManager) : M unit :=
  emit MicrophoneListRequested;;
  microphoneList ← await (getMicrophoneList deviceManager);
  dispatch (SetAudioDeviceList microphoneList);;
  state ← getState;
  match audioDeviceInfo (devices state) with
  | None =>
      match microphoneList with
      | first :: _ =>
          dispatch (SetAudioDeviceInfo first);;
          emit (SetMicrophoneInvoked first)
      | [] => ret tt
      end
  | Some selected =>
      if negb (isSelectedAudioDeviceInList utils selected microphoneList)
      then emit (SetMicrophoneInvoked selected)
      else ret tt
  end.

(** [updateVideoDevices] (lines 307-320).  [cameraList[0]] is [head
    cameraList]: [undefined] when the array is empty. *)
Definition updateVideoDevices (deviceManager : DeviceManager) : M unit :=
  emit CameraListRequested;;
  let cameraList := getCameraList deviceManager in
  dispatch (SetVideoDeviceList cameraList);;
  state ← getState;
  match videoDeviceInfo (devices state) with
  | None => dispatch (SetVideoDeviceInfo (head cameraList))
  | Some selected =>
      if negb (isSelectedVideoDeviceInList utils selected cameraList)
      then dispatch (SetVideoDeviceInfo (Some selected))
      else ret tt
  end.

(** [getFile] (lines 387-406).  No [try] surrounds the two awaits: a
    rejection leaves the thunk through [Threw]. *)
Definition getFile (fileId : string) : M unit :=
  state ← getState;
  match userId state with
  | None =>
      emit (ConsoleError
              "Failed to make getFiles() API call because userId is undefined")
  | Some uid =>
      dispatch (SetFileIsDownloading fileId true);;
      let url := "/groups/" +:+ group (calls state) +:+ "/files/" +:+ fileId in
      emit (FetchIssued url uid);;
      response ← await (fetch world url uid);
      blob ← await (responseBlob world response);
      let objectUrl := createObjectURL world blob in
      dispatch (SetFileBlobUrl fileId objectUrl);;
      dispatch (SetFileIsDownloading fileId false)
  end.

(** The stores a sequence of [callsUpdated] events goes through, one entry
    per added or removed call, each with the store before, the effects of
    that call alone and the store after. *)
Record CallStep := {
  stepCall : Call;
  stepAdded : bool;
  stepBefore : State;
  stepEvents : list Event;
  stepAfter : State
}.

Definition stepOf (isAdded : bool) (c : Call) (s : State) : CallStep :=
  let r := run (if isAdded then onCallAdded c else onCallRemoved c) s in
  {| stepCall := c; stepAdded := isAdded; stepBefore := s;
     stepEvents := trace r.2; stepAfter := store r.2 |}.

Fixpoint stepsOfCalls (isAdded : bool) (cs : list Call) (s : State)
    : list CallStep * State :=
  match cs with
  | [] => ([], s)
  | c :: cs' =>
      let st := stepOf isAdded c s in
      let rest := stepsOfCalls isAdded cs' (stepAfter st) in
      (st :: rest.1, rest.2)
  end.

Fixpoint stepsOfEvents (es : list CallsUpdated) (s : State)
    : list CallStep * State :=
  match es with
  | [] => ([], s)
  | e :: es' =>
      let a := stepsOfCalls true (added e) s in
      let r := stepsOfCalls false (removed e) a.2 in
      let rest := stepsOfEvents es' r.2 in
      ((a.1 ++ r.1 ++ rest.1), rest.2)
  end.

(** The calls a store tracks: the single slot [state.calls.call]. *)
Definition trackedCalls (s : State) : list Call :=
  match call (calls s) with
  | Some c => [c]
  | None => []
  end.

End Thunks.

(** *** Pure readings of the call handlers *)

(** The registrations [subscribeToParticipant] makes for one participant. *)
Definition participantSubscriptions (p : RemoteParticipant) : list Event :=
  [ParticipantOn p "participantStateChanged";
   ParticipantOn p "isSpeakingChanged";
   ParticipantOn p "videoStreamsUpdated"].

(** Whether [onCallAdded] takes its rejecting branch on store [s]. *)
Definition rejects (c : Call) (s : State) : bool :=
  bool_decide (is_Some (call (calls s))) && isIncoming c.

(** The body the handler runs for a delivered call. *)
Definition handlerOf (isAdded : bool) : Call → M unit :=
  if isAdded then onCallAdded else onCallRemoved.

(** The request [getFile] issues for a file id. *)
Definition fileUrl (s : State) (fileId : string) : string :=
  "/groups/" +:+ group (calls s) +:+ "/files/" +:+ fileId.

(** The single-call policy at one step of the log. *)
Definition keepsSingleCall (st : CallStep) : Prop :=
  (length (trackedCalls (stepBefore st)) ≤ 1)%nat ∧
  (length (trackedCalls (stepAfter st)) ≤ 1)%nat ∧
  (stepAdded st = true →
   is_Some (call (calls (stepBefore st))) →
   isIncoming (stepCall st) = true →
   stepEvents st = [CallRejected (stepCall st)] ∧
   stepAfter st = stepBefore st).

(** *** Sample data *)

Definition alice : RemoteParticipant :=
  {| identifier := "8:acs:alice"; participantState := "Connected";
     isSpeaking := false |}.

Definition outgoingCall : Call :=
  {| callRef := 1; isIncoming := false; callState := "Connecting";
     isScreenSharingOn := false; remoteParticipants := [alice] |}.

Definition incomingCall : Call :=
  {| callRef := 2; isIncoming := true; callState := "Incoming";
     isScreenSharingOn := false; remoteParticipants := [] |}.

Definition builtInMic : AudioDeviceInfo :=
  {| audioName := "Built-in microphone"; audioId := "mic-0" |}.

Definition headsetMic : AudioDeviceInfo :=
  {| audioName := "Headset"; audioId := "mic-1" |}.

Definition idleState : State :=
  {| calls := {| call := None; trackedCallState := "None"; participants := [];
                 attempts := 0; group := "group-1" |};
     controls := {| mic := false; shareScreen := false |};
     devices := {| audioDeviceInfo := None; audioDeviceList := [];
                   videoDeviceInfo := None; videoDeviceList := [] |};
     files := {[ "file-1" := {| filename := "a.png"; blobUrl := None;
                                isDownloading := false |} ]};
     screenShareStreams := [];
     userId := Some "user-1" |}.

Definition inCallState : State := reducer idleState (CallAdded outgoingCall).

(** A world in which every SDK call and every request fails. *)
Definition offlineWorld : World :=
  {| callMethod := λ _ _, Rejected "offline";
     fetch := λ _ _, Rejected "offline";
     responseBlob := λ _, Rejected "offline";
     createObjectURL := λ _, "blob:none" |}.

(** Devices are matched by id. *)
Definition sampleUtils : Utils :=
  {| isSelectedAudioDeviceInList := λ d l,
       bool_decide (audioId d ∈ audioId <$> l);
     isSelectedVideoDeviceInList := λ d l,
       bool_decide (videoId d ∈ videoId <$> l) |}.

Definition sampleDeviceManager : DeviceManager :=
  {| getMicrophoneList := Fulfilled [builtInMic; headsetMic];
     getCameraList := [] |}.

End SideEffects.

(* ===================================================================== *)
(** ** Backend: the express file routes                                   *)
(* ===================================================================== *)

Module Server.

(** *** Data *)

(** [FileMetadata] as the routes build and read it (lines 154-158);
    [uploadDateTime] is a valid [Date], held as its [getTime()] value in
    milliseconds. *)
Record FileMetadata := {
  id : string;
  name : string;
  uploadDateTime : Z
}.

(** One row returned by [getUserDetails]; the routes only look at how many
    rows there are. *)
Record UserDetails := { memberGroupId : string; memberUserId : string }.

(** What a rejected storage call throws: the [FileServiceError] the download
    route catches, or anything else. *)
Inductive Exception :=
| FileServiceError
| OtherError (msg : string).

(** [req.file] as multer's [single('file')] leaves it. *)
Record MulterFile := { buffer : list byte }.

(** An express request as the routes see it.  [groupId] and [fileId] are
    route parameters and so always strings.  [file], [image] and [fileName]
    are the parts of a multipart body the upload handler reads once multer
    has parsed it; [otherFields] are the text fields of the body it does not
    read (the client also sends [groupId]). *)
Record Request := {
  authorization : option string;
  groupId : string;
  fileId : string;
  file : option MulterFile;
  image : option string;
  fileName : option string;
  otherFields : list (string * string)
}.

Inductive Body :=
| StatusText
| Text (s : string)
| Json (files : list FileMetadata)
| Bytes (b : list byte)
| ErrorPage.

Record Response := {
  status : nat;
  body : Body;
  attachment : option string;
  contentType : option string
}.

(** [x === undefined] on an optional field. *)
Definition isUndefined {A} (x : option A) : bool :=
  match x with
  | None => true
  | Some _ => false
  end.

(** [res.sendStatus(code)] *)
Definition sendStatus (code : nat) : Response :=
  {| status := code; body := StatusText; attachment := None;
     contentType := None |}.

(** [res.status(code).send(b)] *)
Definition send (code : nat) (b : Body) : Response :=
  {| status := code; body := b; attachment := None; contentType := None |}.

(** What express answers when a middleware fails with an error (here a
    [MulterError]) and no error handler is installed: 500 with its error
    page. *)
Definition errorResponse : Response :=
  {| status := 500; body := ErrorPage; attachment := None;
     contentType := None |}.

(** [multer]'s options, as far as line 10 sets them. *)
Record MulterOptions := { fieldSize : N }.

(** [multer({ limits: { fieldSize: 5 * 1024 * 1024 } })] (line 10) *)
Definition uploadMiddleware : MulterOptions :=
  {| fieldSize := 5 * 1024 * 1024 |}.

(** How a request ends: a response, an exception nobody caught, or no
    response at all. *)
Inductive Outcome :=
| Responded (r : Response)
| Unhandled (e : Exception)
| Pending.

(** The two values a route draws from its environment: what [uuidv4()]
    returns and what [new Date()] reads. *)
Record Env := { uuidv4 : string; now : Z }.

(** *** [Array.prototype.sort] *)

(** [xs.sort(cmp)] for a consistent comparator: a stable sort that puts [a]
    before [b] when [cmp a b] is negative.  Written as an insertion sort. *)
Fixpoint sortInsert {A} (cmp : A → A → Z) (x : A) (xs : list A) : list A :=
  match xs with
  | [] => [x]
  | y :: xs' =>
      if (cmp x y <=? 0)%Z then x :: y :: xs' else y :: sortInsert cmp x xs'
  end.

Definition arraySort {A} (cmp : A → A → Z) (xs : list A) : list A :=
  foldr (sortInsert cmp) [] xs.

(** The comparator of line 75:
    [(a, b) => b.uploadDateTime.getTime() - a.uploadDateTime.getTime()]. *)
Definition newestFirst (a b : FileMetadata) : Z :=
  (uploadDateTime b - uploadDateTime a)%Z.

(** *** The file service *)

(** The functions imported from [./fileService] (line 8).  The module is not
    part of the sources, so the routes are written against this interface:
    reads return a value or throw, writes return the new storage or throw. *)
Class FileService (Storage : Type) := {
  getUserDetails : string → string → Storage → Exception + list UserDetails;
  getFilesForGroup : string → Storage → Exception + list FileMetadata;
  getFileMetadata : string → string → Storage → Exception + FileMetadata;
  downloadFile : string → Storage → Exception + list byte;
  uploadFile : string → list byte → Storage → Exception + Storage;
  addFileMetadata : string → FileMetadata → Storage → Exception + Storage;
  addUserDetails : string → string → Storage → Exception + Storage
}.

(** *** Route handlers *)

(** A step of an async handler: go on with a value, finish with a response
    ([return res...]), or throw. *)
Inductive Step (A : Type) : Type :=
| Continue (a : A)
| Respond (r : Response)
| Throw (e : Exception).
Arguments Continue {A} a.
Arguments Respond {A} r.
Arguments Throw {A} e.

Section Routes.
Context {Storage : Type} `{FileService Storage}.

(** [Buffer.from(s, 'base64')] *)
Variable bufferFromBase64 : string → list byte.

(** The multer library: whether [multer(options).single(name)] fails on a
    request with a [MulterError] (a text field value over the [fieldSize]
    limit, a file part it does not expect) instead of parsing its body into
    [req.file] and [req.body] and calling the next handler.  Which bodies it
    refuses is the library's matter, so it is a parameter. *)
Variable multerSingle : MulterOptions → string → Request → bool.

(** [uploadMiddleware.single('file')] (line 117) fails on [req]. *)
Definition multerRefuses (req : Request) : bool :=
  multerSingle uploadMiddleware "file" req.

Definition Handler (A : Type) : Type := Storage → Step A * Storage.

#[local] Instance Handler_ret : MRet Handler := λ A a st, (Continue a, st).
#[local] Instance Handler_bind : MBind Handler := λ A B k c st,
  match c st with
  | (Continue a, st') => k a st'
  | (Respond r, st') => (Respond r, st')
  | (Throw e, st') => (Throw e, st')
  end.

Definition respond {A} (r : Response) : Handler A := λ st, (Respond r, st).

Definition throw {A} (e : Exception) : Handler A := λ st, (Throw e, st).

(** [await] of a storage read *)
Definition awaitRead {A} (f : Storage → Exception + A) : Handler A :=
  λ st, match f st with
        | inr a => (Continue a, st)
        | inl e => (Throw e, st)
        end.

(** [await] of a storage write *)
Definition awaitWrite (f : Storage → Exception + Storage) : Handler unit :=
  λ st, match f st with
        | inr st' => (Continue tt, st')
        | inl e => (Throw e, st)
        end.

Definition tryCatch {A} (body : Handler A) (handler : Exception → Handler A)
    : Handler A :=
  λ st, match body st with
        | (Throw e, st') => handler e st'
        | other => other
        end.

(** [fakeAuthMiddleware] (lines 35-45): the caller's id, or the 403 it
    answers with.  [!authValue] holds for a missing and for an empty
    header. *)
Definition fakeAuthMiddleware (req : Request) : Response + string :=
  match authorization req with
  | None => inl (sendStatus 403)
  | Some authValue =>
      if String.eqb authValue "" || negb (String.prefix "user" authValue)
      then inl (sendStatus 403)
      else inr authValue
  end.

(** [GET /groups/:groupId/files] (lines 64-78) *)
Definition listFilesHandler (req : Request) (userId : string) : Handler unit :=
  users ← awaitRead (getUserDetails (groupId req) userId);
  if length users =? 0 then respond (sendStatus 403) else
  files ← awaitRead (getFilesForGroup (groupId req));
  let files := arraySort newestFirst files in
  respond (send 200 (Json files)).

(** [GET /groups/:groupId/files/:fileId] (lines 80-110) *)
Definition downloadHandler (req : Request) (userId : string) : Handler unit :=
  users ← awaitRead (getUserDetails (groupId req) userId);
  if length users =? 0 then respond (sendStatus 403) else
  file ← tryCatch (awaitRead (getFileMetadata (groupId req) (fileId req)))
                  (λ e, match e with
                        | FileServiceError => respond (sendStatus 404)
                        | _ => throw e
                        end);
  fileStream ← awaitRead (downloadFile (fileId req));
  respond {| status := 200; body := Bytes fileStream;
             attachment := Some (name file);
             contentType := Some "application/octet-stream" |}.

(** [POST /groups/:groupId/files] (lines 117-164).  The guard on an
    undefined [groupId] (line 136) cannot fire for a route parameter.  In
    the branch that decodes the image, [req.file] is undefined and the first
    guard has passed, so [body.image] is defined. *)
Definition uploadHandler (env : Env) (req : Request) (userId : string)
    : Handler unit :=
  users ← awaitRead (getUserDetails (groupId req) userId);
  if length users =? 0 then respond (sendStatus 403) else
  if isUndefined (file req) && isUndefined (image req)
  then respond (send 400 (Text "Invalid file/image")) else
  match fileName req with
  | None => respond (send 400 (Text "Invalid file name"))
  | Some fileName =>
      let newFileId := uuidv4 env in
      match file req with
      | Some f => awaitWrite (uploadFile newFileId (buffer f))
      | None =>
          let buffer := bufferFromBase64 (default "" (image req)) in
          awaitWrite (uploadFile newFileId buffer)
      end;;
      let newFileMetadata :=
        {| id := newFileId; name := fileName; uploadDateTime := now env |} in
      awaitWrite (addFileMetadata (groupId req) newFileMetadata);;
      respond (sendStatus 204)
  end.

(** [POST /groups/:groupId/user] (lines 166-177); the guard on an
    undefined [groupId] cannot fire here either. *)
Definition registerUserHandler (req : Request) (userId : string)
    : Handler unit :=
  awaitWrite (addUserDetails (groupId req) userId);;
  respond (sendStatus 204).

(** A route: the middleware, then the handler. *)
Definition route (handler : Request → string → Handler unit) (req : Request)
    (st : Storage) : Outcome * Storage :=
  match fakeAuthMiddleware req with
  | inl r => (Responded r, st)
  | inr userId =>
      match handler req userId st with
      | (Continue _, st') => (Pending, st')
      | (Respond r, st') => (Responded r, st')
      | (Throw e, st') => (Unhandled e, st')
      end
  end.

Definition listFiles := route listFilesHandler.
Definition download := route downloadHandler.
Definition registerUser := route registerUserHandler.

(** The upload route without its multer stage, as it runs on a body multer
    has parsed. *)
Definition uploadParsed (env : Env) := route (uploadHandler env).

(** [uploadMiddleware.single('file')] as a stage of the upload route: when
    multer fails, express answers with its error response and the handler
    is not called. *)
Definition uploadMiddlewareSingle (req : Request) : Handler unit :=
  if multerRefuses req then respond errorResponse else mret tt.

(** The upload route (line 117): [fakeAuthMiddleware], then
    [uploadMiddleware.single('file')], then the handler. *)
Definition upload (env : Env) :=
  route (λ req userId,
           uploadMiddlewareSingle req;; uploadHandler env req userId).

(** The bytes an upload request submits: the multipart file's buffer when
    there is one, the decoded image otherwise (lines 142-149). *)
Definition submittedBytes (req : Request) : list byte :=
  match file req with
  | Some f => buffer f
  | None => bufferFromBase64 (default "" (image req))
  end.

(** The four file-exchange requests the backend serves. *)
Inductive ServerRequest :=
| ListFiles (req : Request)
| Download (req : Request)
| Upload (env : Env) (req : Request)
| RegisterUser (req : Request).

Definition serve (r : ServerRequest) (st : Storage) : Outcome * Storage :=
  match r with
  | ListFiles req => listFiles req st
  | Download req => download req st
  | Upload env req => upload env req st
  | RegisterUser req => registerUser req st
  end.

(** The storage after a sequence of requests served one after the other. *)
Definition serveAll (rs : list ServerRequest) (st : Storage) : Storage :=
  foldl (λ st r, (serve r st).2) st rs.

End Routes.

(** *** Blob and table storage *)

(** Modelled from the spec: the storage behind [./fileService], which is not
    part of the sources.  Blob storage holds bytes under a file id; the
    metadata table is "keyed by group and file id" (glossary); a user-detail
    entry records a (group, user) pair (section 4.4). *)
Record Storage := {
  blobs : gmap string (list byte);
  fileMetadataTable : gmap (string * string) FileMetadata;
  userDetailsTable : gset (string * string)
}.

Definition emptyStorage : Storage :=
  {| blobs := ∅; fileMetadataTable := ∅; userDetailsTable := ∅ |}.

(** Modelled from the spec: [getUserDetails] is not part of the sources.
    It returns the "previously recorded user-detail entry" of the caller in
    the group, if there is one (section 4.4, List). *)
Definition tableGetUserDetails (g u : string) (st : Storage)
    : Exception + list UserDetails :=
  inr (if bool_decide ((g, u) ∈ userDetailsTable st)
       then [{| memberGroupId := g; memberUserId := u |}]
       else []).

(** Modelled from the spec: [getFilesForGroup] is not part of the sources.
    It returns the metadata stored for the group, in table order. *)
Definition tableGetFilesForGroup (g : string) (st : Storage)
    : Exception + list FileMetadata :=
  inr ((filter (λ kv, kv.1.1 = g) (map_to_list (fileMetadataTable st))).*2).

(** Modelled from the spec: [getFileMetadata] is not part of the sources.
    It "looks up metadata (404 if absent)" (section 4.4, Download): a missing
    row is the [FileServiceError] the route turns into 404. *)
Definition tableGetFileMetadata (g f : string) (st : Storage)
    : Exception + FileMetadata :=
  match fileMetadataTable st !! (g, f) with
  | Some md => inr md
  | None => inl FileServiceError
  end.

(** Modelled from the spec: [downloadFile] is not part of the sources.  It
    yields the blob content stored under the id; a missing blob is an error
    of the storage service. *)
Definition blobDownloadFile (f : string) (st : Storage)
    : Exception + list byte :=
  match blobs st !! f with
  | Some b => inr b
  | None => inl (OtherError "BlobNotFound")
  end.

(** Modelled from the spec: [uploadFile] is not part of the sources.  It
    "writes bytes to blob storage under that id" (section 4.4, Upload). *)
Definition blobUploadFile (f : string) (b : list byte) (st : Storage)
    : Exception + Storage :=
  inr {| blobs := <[f := b]> (blobs st);
         fileMetadataTable := fileMetadataTable st;
         userDetailsTable := userDetailsTable st |}.

(** Modelled from the spec: [addFileMetadata] is not part of the sources.
    It "writes metadata ... keyed by group and id" (section 4.4, Upload). *)
Definition tableAddFileMetadata (g : string) (md : FileMetadata)
    (st : Storage) : Exception + Storage :=
  inr {| blobs := blobs st;
         fileMetadataTable := <[(g, id md) := md]> (fileMetadataTable st);
         userDetailsTable := userDetailsTable st |}.

(** Modelled from the spec: [addUserDetails] is not part of the sources.  It
    records the (group, user) pair (section 4.4, Membership registration). *)
Definition tableAddUserDetails (g u : string) (st : Storage)
    : Exception + Storage :=
  inr {| blobs := blobs st;
         fileMetadataTable := fileMetadataTable st;
         userDetailsTable := {[ (g, u) ]} ∪ userDetailsTable st |}.

#[global] Instance storageService : FileService Storage := {
  getUserDetails := tableGetUserDetails;
  getFilesForGroup := tableGetFilesForGroup;
  getFileMetadata := tableGetFileMetadata;
  downloadFile := blobDownloadFile;
  uploadFile := blobUploadFile;
  addFileMetadata := tableAddFileMetadata;
  addUserDetails := tableAddUserDetails
}.

(** Every metadata row has its blob: the upload route writes the blob before
    the row. *)
Definition consistent (st : Storage) : Prop :=
  ∀ g f md, fileMetadataTable st !! (g, f) = Some md → is_Some (blobs st !! f).

(** An upload that draws a different id than [fid] (ids are "globally
    unique", spec section 3); other requests draw none. *)
Definition drawsOtherId (fid : string) (r : ServerRequest) : Prop :=
  match r with
  | Upload env _ => uuidv4 env ≠ fid
  | _ => True
  end.

(** Upload time order: [a] was uploaded no earlier than [b]. *)
Definition newerOrSame (a b : FileMetadata) : Prop :=
  (uploadDateTime b ≤ uploadDateTime a)%Z.

(** The upload condition in the words of the spec (section 6): a multipart
    file, or a base64 image together with a file name, is supplied. *)
Definition specSuppliesUpload (req : Request) : Prop :=
  is_Some (file req) ∨ (is_Some (image req) ∧ is_Some (fileName req)).

(** *** Sample data *)

(** A base64 decoder, the sample instance of [Buffer.from(_, 'base64')]:
    the standard alphabet and the URL-safe one ([-] and [_] for 62 and 63);
    other characters are skipped and decoding stops at the padding. *)
Definition base64Digit (c : ascii) : option N :=
  let n := N_of_ascii c in
  if (65 <=? n)%N && (n <=? 90)%N then Some (n - 65)%N
  else if (97 <=? n)%N && (n <=? 122)%N then Some (n - 71)%N
  else if (48 <=? n)%N && (n <=? 57)%N then Some (n + 4)%N
  else if (n =? 43)%N || (n =? 45)%N then Some 62%N
  else if (n =? 47)%N || (n =? 95)%N then Some 63%N
  else None.

Fixpoint base64Digits (s : string) : list N :=
  match s with
  | EmptyString => []
  | String c s' =>
      match base64Digit c with
      | Some d => d :: base64Digits s'
      | None => if Ascii.eqb c "=" then [] else base64Digits s'
      end
  end.

Definition lowByte (n : N) : byte := default x00 (Byte.of_N (n mod 256)).

Fixpoint base64Bytes (ds : list N) : list byte :=
  match ds with
  | a :: b :: c :: d :: rest =>
      let n := (a * 262144 + b * 4096 + c * 64 + d)%N in
      lowByte (n / 65536) :: lowByte (n / 256) :: lowByte n
        :: base64Bytes rest
  | [a; b; c] =>
      let n := (a * 262144 + b * 4096 + c * 64)%N in
      [lowByte (n / 65536); lowByte (n / 256)]
  | [a; b] => [lowByte ((a * 262144 + b * 4096) / 65536)]
  | _ => []
  end.

Definition base64Decode (s : string) : list byte :=
  base64Bytes (base64Digits s).

(** The length of a text field value, in bytes. *)
Fixpoint byteLength (s : string) : N :=
  match s with
  | EmptyString => 0
  | String _ s' => N.succ (byteLength s')
  end.

(** The values of the text fields of a body. *)
Definition textValues (req : Request) : list string :=
  option_list (image req) ++ option_list (fileName req)
    ++ (otherFields req).*2.

(** A sample of the multer library: a body is refused when one of its text
    field values is longer than the [fieldSize] limit.  (Whether a value of
    exactly the limit is refused depends on the release of the parser
    behind multer; the sample lets it through, and nothing below is stated
    at that length.) *)
Definition sampleMulter (options : MulterOptions) (name : string)
    (req : Request) : bool :=
  existsb (λ value, (fieldSize options <? byteLength value)%N)
          (textValues req).

(** A text of [n] letters. *)
Definition textOfLength (n : N) : string :=
  N.iter n (String "A"%char) EmptyString.

(** An image field one byte over the 5 MiB limit, from a caller who passes
    the Authorization middleware. *)
Definition oversizeRequest : Request :=
  {| authorization := Some "user-1"; groupId := "group-1"; fileId := "";
     file := None; image := Some (textOfLength (5 * 1024 * 1024 + 1));
     fileName := Some "user_photo.png"; otherFields := [] |}.

Definition firstDraw : Env := {| uuidv4 := "id-1"; now := 1000 |}.
Definition secondDraw : Env := {| uuidv4 := "id-2"; now := 2000 |}.

(** A photo captured by the client: the image field and a file name. *)
Definition imageRequest : Request :=
  {| authorization := Some "user-1"; groupId := "group-1"; fileId := "";
     file := None; image := Some "aGk="; fileName := Some "user_photo.png";
     otherFields := [] |}.

(** A multipart file with its name. *)
Definition fileRequest : Request :=
  {| authorization := Some "user-1"; groupId := "group-1"; fileId := "";
     file := Some {| buffer := [x01; x02; x03] |}; image := None;
     fileName := Some "notes.txt"; otherFields := [] |}.

(** A multipart file without the [fileName] field. *)
Definition fileOnlyRequest : Request :=
  {| authorization := Some "user-1"; groupId := "group-1"; fileId := "";
     file := Some {| buffer := [x01; x02; x03] |}; image := None;
     fileName := None; otherFields := [] |}.

Definition readRequest (f : string) : Request :=
  {| authorization := Some "user-1"; groupId := "group-1"; fileId := f;
     file := None; image := None; fileName := None;
     otherFields := [] |}.

(** [user-1] has registered with [group-1]; nothing is stored yet. *)
Definition memberStorage : Storage :=
  {| blobs := ∅; fileMetadataTable := ∅;
     userDetailsTable := {[ ("group-1", "user-1") ]} |}.

Definition photoMetadata : FileMetadata :=
  {| id := "id-1"; name := "user_photo.png"; uploadDateTime := 1000 |}.

Definition notesMetadata : FileMetadata :=
  {| id := "id-2"; name := "notes.txt"; uploadDateTime := 2000 |}.

Definition photoStorage : Storage :=
  (upload base64Decode sampleMulter firstDraw imageRequest memberStorage).2.

Definition twoFilesStorage : Storage :=
  serveAll base64Decode sampleMulter
    [Upload firstDraw imageRequest; Upload secondDraw fileRequest]
    memberStorage.

End Server.

(* ===================================================================== *)
(** ** Client: SDK event handlers and upload thunks                       *)
(* ===================================================================== *)

Module Handlers.
Import SideEffects.

(** The handler registered for ['callStateChanged'] (lines 156-158).  The
    call object is read when the event fires; [c] is the call as it is
    then. *)
Definition onCallStateChanged (c : Call) : M unit :=
  dispatch (SetCallState (callState c)).

(** The handler registered for ['isScreenSharingOnChanged']
    (lines 160-162). *)
Definition onIsScreenSharingOnChanged (c : Call) : M unit :=
  dispatch (SetShareScreen (isScreenSharingOn c)).

(** The payload of a ['remoteParticipantsUpdated'] event. *)
Record ParticipantsUpdated := {
  addedParticipants : list RemoteParticipant;
  removedParticipants : list RemoteParticipant
}.

(** The handler registered for ['remoteParticipantsUpdated']
    (lines 164-176); [c] is the call as it is when the event fires. *)
Definition onRemoteParticipantsUpdated (c : Call) (ev : ParticipantsUpdated)
    : M unit :=
  forEach (addedParticipants ev) (λ addedRemoteParticipant,
    emit (ConsoleLog "participantAdded");;
    subscribeToParticipant addedRemoteParticipant c;;
    dispatch (SetParticipants (remoteParticipants c)));;
  if 0 <? length (removedParticipants ev)
  then emit (ConsoleLog "participantRemoved");;
       dispatch (SetParticipants (remoteParticipants c))
  else mret tt.

(** The participant handlers [subscribeToParticipant] registers for
    ['participantStateChanged'] and ['isSpeakingChanged']
    (lines 230-237). *)
Definition onParticipantStateChanged (c : Call) : M unit :=
  emit (ConsoleLog "participant stateChanged");;
  dispatch (SetParticipants (remoteParticipants c)).

Definition onIsSpeakingChanged (c : Call) : M unit :=
  dispatch (SetParticipants (remoteParticipants c)).

End Handlers.

Module Uploads.
Import SideEffects.

(** A browser [File]: its name and its content. *)
Record File := { fileName : string; fileContent : list byte }.

(** [media: string | File] *)
Inductive Media :=
| MediaFile (f : File)
| MediaString (s : string).

(** The [FormData] of an upload, by field. *)
Record FormData := {
  formFile : option File;
  formImage : option string;
  formFileName : string;
  formGroupId : string
}.

(** [s] without the prefix [p], when it starts with [p]. *)
Fixpoint dropPrefix (p s : string) : option string :=
  match p, s with
  | EmptyString, _ => Some s
  | String a p', String b s' =>
      if Ascii.eqb a b then dropPrefix p' s' else None
  | String _ _, EmptyString => None
  end.

(** [dataUrl.replace(/^data:image\/(png|jpg);base64,/, '')] (line 430):
    the prefix is removed when the string starts with it, for either
    alternative; otherwise the string is returned as it is. *)
Definition stripDataUrlPrefix (dataUrl : string) : string :=
  match dropPrefix "data:image/png;base64," dataUrl with
  | Some rest => rest
  | None =>
      match dropPrefix "data:image/jpg;base64," dataUrl with
      | Some rest => rest
      | None => dataUrl
      end
  end.

(** The form [uploadFile] fills (lines 436-443). *)
Definition uploadFormData (groupId : string) (media : Media)
    (fileName : string) : FormData :=
  match media with
  | MediaFile f =>
      {| formFile := Some f; formImage := None; formFileName := fileName;
         formGroupId := groupId |}
  | MediaString s =>
      {| formFile := None; formImage := Some s; formFileName := fileName;
         formGroupId := groupId |}
  end.

Section UploadThunks.

(** [fetch(url, { method: 'POST', body, headers: { Authorization } })]: how
    the request settles, by URL, Authorization header and body. *)
Variable post : string → string → option FormData → Settled nat.

(** [response.ok] *)
Variable responseOk : nat → bool.

(** [uploadFile] (lines 435-459) *)
Definition uploadFile (userId groupId : string) (media : Media)
    (fileName : string) : M bool :=
  let data := uploadFormData groupId media fileName in
  let url := "/groups/" +:+ groupId +:+ "/files" in
  SideEffects.tryCatch
    (emit (FetchIssued url userId);;
     sendFileResponse ← await (post url userId (Some data));
     mret (responseOk sendFileResponse))
    (λ error,
       emit (ConsoleError ("Failed at sending image, Error: " +:+ error));;
       mret false).

(** [uploadSelectedFile] (lines 408-419) *)
Definition uploadSelectedFile (file : File) : M bool :=
  state ← getState;
  match userId state with
  | None =>
      emit (ConsoleError
        "Failed to make sendFile() API call because userId is undefined");;
      mret false
  | Some uid =>
      uploadFile uid (group (calls state)) (MediaFile file) (fileName file)
  end.

(** [uploadCapturedImage] (lines 421-433) *)
Definition uploadCapturedImage (dataUrl : string) : M bool :=
  state ← getState;
  match userId state with
  | None =>
      emit (ConsoleError
        "Failed to make sendImage() API call because userId is undefined");;
      mret false
  | Some uid =>
      let base64String := stripDataUrlPrefix dataUrl in
      uploadFile uid (group (calls state)) (MediaString base64String)
        "user_photo.png"
  end.

(** [blobAuthorization] (lines 275-305).  The store's group is a string, so
    of the two guards only the one on the user id can fire; the function
    then returns [undefined] ([None]). *)
Definition blobAuthorization : M (option bool) :=
  state ← getState;
  match userId state with
  | None =>
      emit (ConsoleLog
        "Failed to make API call because userId is undefined");;
      mret None
  | Some uid =>
      let url := "/groups/" +:+ group (calls state) +:+ "/user" in
      SideEffects.tryCatch
        (emit (FetchIssued url uid);;
         sendUserDetailsResponse ← await (post url uid None);
         mret (Some (responseOk sendUserDetailsResponse)))
        (λ error,
           emit (ConsoleError
                   ("Failed at sending UserDetails, Error: " +:+ error));;
           mret (Some false))
  end.

End UploadThunks.


(** *** Sample data *)


(** A backend that accepts every request. *)
Definition acceptingPost : string → string → option FormData → Settled nat :=
  λ _ _ _, Fulfilled 204.

Definition refusedPost : string → string → option FormData → Settled nat :=
  λ _ _ _, Rejected "offline".

Definition statusOk (code : nat) : bool := (200 <=? code) && (code <=? 299).

End Uploads.

Module ClientScenarios.
Import SideEffects.

(** A world in which every SDK call and every request succeeds. *)
Definition onlineWorld : World :=
  {| callMethod := λ _ _, Fulfilled tt;
     fetch := λ _ _, Fulfilled 1;
     responseBlob := λ _, Fulfilled 2;
     createObjectURL := λ _, "blob:file-1" |}.

(** A world in which requests resolve but their bodies cannot be read. *)
Definition brokenBodyWorld : World :=
  {| callMethod := λ _ _, Fulfilled tt;
     fetch := λ _ _, Fulfilled 1;
     responseBlob := λ _, Rejected "aborted";
     createObjectURL := λ _, "blob:none" |}.

(** The idle store before the user id is known. *)
Definition anonymousState : State :=
  {| calls := calls idleState; controls := controls idleState;
     devices := devices idleState; files := files idleState;
     screenShareStreams := []; userId := None |}.

End ClientScenarios.

(* ===================================================================== *)
(** ** Scenarios                                                          *)
(* ===================================================================== *)

Module Scenarios.
Import Server.

(** A request with no Authorization header. *)
Definition anonymousRequest : Request :=
  {| authorization := None; groupId := "group-1"; fileId := "id-1";
     file := None; image := None; fileName := None;
     otherFields := [] |}.

(** A request that carries both a multipart file and an image field. *)
Definition fileAndImageRequest : Request :=
  {| authorization := Some "user-1"; groupId := "group-1"; fileId := "";
     file := Some {| buffer := [x01; x02; x03] |}; image := Some "aGk=";
     fileName := Some "notes.txt"; otherFields := [] |}.

(** [req] with its image field removed. *)
Definition withoutImage (req : Request) : Request :=
  {| authorization := authorization req; groupId := groupId req;
     fileId := fileId req; file := file req; image := None;
     fileName := fileName req; otherFields := otherFields req |}.

(** Blob and table storage whose metadata table refuses writes and whose
    reads of a row fail with an error other than [FileServiceError]. *)
Definition tableOutage : FileService Storage := {|
  getUserDetails := tableGetUserDetails;
  getFilesForGroup := tableGetFilesForGroup;
  getFileMetadata := λ _ _ _, inl (OtherError "table unavailable");
  downloadFile := blobDownloadFile;
  uploadFile := blobUploadFile;
  addFileMetadata := λ _ _ _, inl (OtherError "table unavailable");
  addUserDetails := tableAddUserDetails
|}.

(** A copy of the photo, uploaded at the same time under another id. *)
Definition photoCopyMetadata : FileMetadata :=
  {| id := "id-3"; name := "copy.png"; uploadDateTime := 1000 |}.

(** A file service over a fixed list of rows in which every caller is a
    member: a listing returns the rows in the order of the list. *)
Definition rowsService : FileService (list FileMetadata) := {|
  getUserDetails := λ g u _,
    inr [{| memberGroupId := g; memberUserId := u |}];
  getFilesForGroup := λ _ rows, inr rows;
  getFileMetadata := λ _ _ _, inl FileServiceError;
  downloadFile := λ _ _, inl (OtherError "no blobs");
  uploadFile := λ _ _ rows, inr rows;
  addFileMetadata := λ _ md rows, inr (md :: rows);
  addUserDetails := λ _ _ rows, inr rows
|}.

(** A registration request of [user-2] for [group-2]. *)
Definition joinRequest : Request :=
  {| authorization := Some "user-2"; groupId := "group-2"; fileId := "";
     file := None; image := None; fileName := None;
     otherFields := [] |}.

(** [user-2] reading file [f] through [group-2]. *)
Definition otherGroupRead (f : string) : Request :=
  {| authorization := Some "user-2"; groupId := "group-2"; fileId := f;
     file := None; image := None; fileName := None;
     otherFields := [] |}.

(** [user-1] is in [group-1], [user-2] in [group-2]. *)
Definition twoGroupsStorage : Storage :=
  (registerUser joinRequest memberStorage).2.

(** The same, after [user-1] uploaded a photo into [group-1]. *)
Definition sharedStorage : Storage :=
  (upload base64Decode sampleMulter firstDraw imageRequest twoGroupsStorage).2.

End Scenarios.

(* ===================================================================== *)
(** ** Properties of the client                                           *)
(* ===================================================================== *)

Import SideEffects.

Ltac step_thunk :=
  unfold run, mbind, mret, M_bind, M_ret, bind, ret, getState, dispatch,
    emit, await, SideEffects.tryCatch; cbn.

(** *** Call tracking *)

Lemma subscribe_all_run (c : Call) (rp : list RemoteParticipant) (m : Machine) :
  forEach rp (λ v, subscribeToParticipant v c) m =
  (Returned tt,
   {| store := store m;
      trace := trace m ++ flat_map participantSubscriptions rp |}).
Proof.
  revert m. induction rp as [| p rp IH]; intros m.
  - cbn. rewrite app_nil_r. destruct m; reflexivity.
  - cbn [forEach]. unfold subscribeToParticipant. step_thunk.
    rewrite IH. cbn. rewrite <- !app_assoc. reflexivity.
Qed.

Lemma onCallAdded_machine (c : Call) (m : Machine) :
  onCallAdded c m =
  (Returned tt,
   if rejects c (store m)
   then {| store := store m; trace := trace m ++ [CallRejected c] |}
   else {| store := reducer (reducer (reducer (store m) (CallAdded c))
                               (SetParticipants (remoteParticipants c)))
                            (SetCallState (callState c));
           trace := trace m ++
             [Dispatched (CallAdded c);
              CallOn c "callStateChanged";
              CallOn c "isScreenSharingOnChanged";
              CallOn c "remoteParticipantsUpdated"] ++
             flat_map participantSubscriptions (remoteParticipants c) ++
             [Dispatched (SetParticipants (remoteParticipants c));
              Dispatched (SetCallState (callState c))] |}).
Proof.
  unfold onCallAdded, rejects. step_thunk.
  destruct (bool_decide _ && isIncoming c); [reflexivity |].
  step_thunk. rewrite subscribe_all_run. cbn.
  rewrite <- !app_assoc. reflexivity.
Qed.

Lemma onCallRemoved_machine (c : Call) (m : Machine) :
  onCallRemoved c m =
  (Returned tt,
   let s := store m in
   let retried := Dispatched (CallRetried (attempts (calls s) + 1)) in
   let s1 := reducer s (CallRetried (attempts (calls s) + 1)) in
   match call (calls s) with
   | Some tracked =>
       if bool_decide (callRef tracked = callRef c)
       then {| store := reducer (reducer (reducer s1
                                   (CallRemoved c (group (calls s))))
                                   ResetControls) ResetStreams;
               trace := trace m ++
                 [retried; Dispatched (CallRemoved c (group (calls s)));
                  Dispatched ResetControls; Dispatched ResetStreams] |}
       else {| store := s1; trace := trace m ++ [retried] |}
   | None => {| store := s1; trace := trace m ++ [retried] |}
   end).
Proof.
  unfold onCallRemoved. step_thunk.
  destruct (call (calls (store m))) as [tracked |]; [| reflexivity].
  destruct (bool_decide _); [| reflexivity].
  step_thunk. rewrite <- !app_assoc. reflexivity.
Qed.

Lemma stepOf_frame (isAdded : bool) (c : Call) (m : Machine) :
  handlerOf isAdded c m =
  (Returned tt,
   {| store := stepAfter (stepOf isAdded c (store m));
      trace := trace m ++ stepEvents (stepOf isAdded c (store m)) |}).
Proof.
  unfold stepOf, run, handlerOf. destruct isAdded; cbn [stepAfter stepEvents].
  - rewrite !onCallAdded_machine. cbn.
    destruct (rejects c (store m)); reflexivity.
  - rewrite !onCallRemoved_machine. cbn.
    destruct (call (calls (store m))) as [tracked |]; [| reflexivity].
    destruct (bool_decide _); reflexivity.
Qed.

Lemma forEach_calls_run (isAdded : bool) (cs : list Call) (m : Machine) :
  forEach cs (handlerOf isAdded) m =
  (Returned tt,
   {| store := (stepsOfCalls isAdded cs (store m)).2;
      trace := trace m ++
               concat (stepEvents <$> (stepsOfCalls isAdded cs (store m)).1) |}).
Proof.
  revert m. induction cs as [| c cs IH]; intros m.
  - cbn. rewrite app_nil_r. destruct m; reflexivity.
  - cbn [forEach]. unfold mbind, M_bind, bind.
    rewrite stepOf_frame, IH. cbn. rewrite <- app_assoc. reflexivity.
Qed.

Lemma forEach_events_run (es : list CallsUpdated) (m : Machine) :
  forEach es callsUpdated m =
  (Returned tt,
   {| store := (stepsOfEvents es (store m)).2;
      trace := trace m ++
               concat (stepEvents <$> (stepsOfEvents es (store m)).1) |}).
Proof.
  revert m. induction es as [| e es IH]; intros m.
  - cbn. rewrite app_nil_r. destruct m; reflexivity.
  - cbn [forEach]. unfold callsUpdated, mbind, M_bind, bind.
    rewrite (forEach_calls_run true), (forEach_calls_run false), IH. cbn.
    rewrite !fmap_app, !concat_app, <- !app_assoc. reflexivity.
Qed.

Lemma stepsOfCalls_calls (isAdded : bool) (cs : list Call) (s : State) :
  stepCall <$> (stepsOfCalls isAdded cs s).1 = cs.
Proof.
  revert s. induction cs as [| c cs IH]; intros s; [reflexivity |].
  cbn. rewrite IH. reflexivity.
Qed.

Lemma stepsOfEvents_calls (es : list CallsUpdated) (s : State) :
  stepCall <$> (stepsOfEvents es s).1
  = flat_map (λ e, added e ++ removed e) es.
Proof.
  revert s. induction es as [| e es IH]; intros s; [reflexivity |].
  cbn. rewrite !fmap_app, !stepsOfCalls_calls, IH, <- app_assoc.
  reflexivity.
Qed.

Lemma trackedCalls_at_most_one (s : State) :
  (length (trackedCalls s) ≤ 1)%nat.
Proof. unfold trackedCalls. destruct (call (calls s)); cbn; lia. Qed.

Lemma stepOf_keepsSingleCall (isAdded : bool) (c : Call) (s : State) :
  keepsSingleCall (stepOf isAdded c s).
Proof.
  split; [apply trackedCalls_at_most_one |].
  split; [apply trackedCalls_at_most_one |].
  unfold stepOf, run. cbn [stepAdded stepBefore stepCall stepEvents stepAfter].
  intros -> Htracked Hincoming.
  rewrite onCallAdded_machine. unfold rejects. cbn [store trace].
  rewrite bool_decide_eq_true_2 by exact Htracked.
  rewrite Hincoming. cbn. auto.
Qed.

Lemma stepsOfCalls_keepSingleCall (isAdded : bool) (cs : list Call) (s : State) :
  Forall keepsSingleCall (stepsOfCalls isAdded cs s).1.
Proof.
  revert s. induction cs as [| c cs IH]; intros s; cbn.
  - constructor.
  - constructor; [apply stepOf_keepsSingleCall | apply IH].
Qed.

Example second_incoming_call_is_rejected :
  let log := stepsOfEvents
               [{| added := [outgoingCall; incomingCall]; removed := [] |}]
               idleState in
  stepEvents <$> log.1 !! 1 = Some [CallRejected incomingCall] ∧
  call (calls log.2) = Some outgoingCall.
Proof. split; reflexivity. Qed.

Example incoming_call_on_idle_store_is_tracked :
  call (calls (stepsOfEvents [{| added := [incomingCall]; removed := [] |}]
                 idleState).2) = Some incomingCall.
Proof. reflexivity. Qed.

(** C1.  For every sequence of [callsUpdated] events and every initial
    store, the handler runs to completion through the logged steps, one per
    delivered call; before and after each step the store tracks at most one
    call; and whenever an added call is incoming while a call is tracked,
    the only effect of its step is the rejection of that call: nothing is
    dispatched and the store is unchanged. *)
Theorem callsUpdated_tracks_one_call_and_rejects_second_incoming
    (es : list CallsUpdated) (s : State) :
  let log := stepsOfEvents es s in
  run (forEach es callsUpdated) s =
    (Returned tt,
     {| store := log.2; trace := concat (stepEvents <$> log.1) |}) ∧
  stepCall <$> log.1 = flat_map (λ e, added e ++ removed e) es ∧
  Forall (λ st,
    (length (trackedCalls (stepBefore st)) ≤ 1)%nat ∧
    (length (trackedCalls (stepAfter st)) ≤ 1)%nat ∧
    (stepAdded st = true →
     is_Some (call (calls (stepBefore st))) →
     isIncoming (stepCall st) = true →
     stepEvents st = [CallRejected (stepCall st)] ∧
     stepAfter st = stepBefore st)) log.1.
Proof.
  intros log. subst log. split; [| split].
  - unfold run. rewrite forEach_events_run. reflexivity.
  - apply stepsOfEvents_calls.
  - revert s. induction es as [| e es IH]; intros s; cbn.
    + constructor.
    + rewrite !Forall_app. split; [| split].
      * apply stepsOfCalls_keepSingleCall.
      * apply stepsOfCalls_keepSingleCall.
      * apply IH.
Qed.

(** *** Toggles *)

Lemma setMicrophone_run world s c flag :
  call (calls s) = Some c →
  run (setMicrophone world flag) s =
  let op := if negb (mic (controls s)) then Unmute else Mute in
  match callMethod world c op with
  | Fulfilled _ =>
      (Returned tt,
       {| store := reducer s (SetMic flag);
          trace := [CallInvoked c op; Dispatched (SetMic flag)] |})
  | Rejected e =>
      (Returned tt,
       {| store := s; trace := [CallInvoked c op; ConsoleError e] |})
  end.
Proof.
  intros Hc. unfold setMicrophone. step_thunk. rewrite Hc.
  destruct (mic (controls s)); cbn.
  - destruct (callMethod world c Mute); reflexivity.
  - destruct (callMethod world c Unmute); reflexivity.
Qed.

Lemma setShareUnshareScreen_run world s c flag :
  call (calls s) = Some c →
  run (setShareUnshareScreen world flag) s =
  let op := if negb (shareScreen (controls s))
            then StartScreenSharing else StopScreenSharing in
  match callMethod world c op with
  | Fulfilled _ =>
      (Returned tt,
       {| store := reducer s (SetShareScreen flag);
          trace := [CallInvoked c op; Dispatched (SetShareScreen flag)] |})
  | Rejected e =>
      (Returned tt,
       {| store := s; trace := [CallInvoked c op; ConsoleError e] |})
  end.
Proof.
  intros Hc. unfold setShareUnshareScreen. step_thunk. rewrite Hc.
  destruct (shareScreen (controls s)); cbn.
  - destruct (callMethod world c StopScreenSharing); reflexivity.
  - destruct (callMethod world c StartScreenSharing); reflexivity.
Qed.

Lemma no_dispatch_in_failed_toggle c op e a :
  Dispatched a ∉ [CallInvoked c op; ConsoleError e].
Proof.
  intros Hin. apply list_elem_of_In in Hin.
  destruct Hin as [Heq | [Heq | []]]; discriminate Heq.
Qed.

(** C7.  For the microphone toggle and for the screen-share toggle, on a
    store that tracks a call: when the SDK action rejects, the thunk leaves
    the store as it found it and dispatches nothing; when the SDK action
    resolves, the only dispatch is the one setting the flag, it comes after
    the SDK call in the trace, and the flag then holds the requested
    value. *)
Theorem toggles_update_flag_only_after_sdk_success
    (world : World) (s : State) (c : Call) (flag : bool) :
  call (calls s) = Some c →
  let micOp := if negb (mic (controls s)) then Unmute else Mute in
  let shareOp := if negb (shareScreen (controls s))
                 then StartScreenSharing else StopScreenSharing in
  let micRun := (run (setMicrophone world flag) s).2 in
  let shareRun := (run (setShareUnshareScreen world flag) s).2 in
  (∀ e, callMethod world c micOp = Rejected e →
        store micRun = s ∧ ∀ a, Dispatched a ∉ trace micRun) ∧
  (∀ u, callMethod world c micOp = Fulfilled u →
        trace micRun = [CallInvoked c micOp; Dispatched (SetMic flag)] ∧
        store micRun = reducer s (SetMic flag) ∧
        mic (controls (store micRun)) = flag) ∧
  (∀ e, callMethod world c shareOp = Rejected e →
        store shareRun = s ∧ ∀ a, Dispatched a ∉ trace shareRun) ∧
  (∀ u, callMethod world c shareOp = Fulfilled u →
        trace shareRun =
          [CallInvoked c shareOp; Dispatched (SetShareScreen flag)] ∧
        store shareRun = reducer s (SetShareScreen flag) ∧
        shareScreen (controls (store shareRun)) = flag).
Proof.
  intros Hc micOp shareOp micRun shareRun.
  subst micRun shareRun.
  rewrite (setMicrophone_run world s c flag Hc).
  rewrite (setShareUnshareScreen_run world s c flag Hc).
  cbv zeta. fold micOp shareOp.
  split; [| split; [| split]].
  - intros e He. rewrite He. split; [reflexivity |].
    cbn. apply no_dispatch_in_failed_toggle.
  - intros u Hu. rewrite Hu. auto.
  - intros e He. rewrite He. split; [reflexivity |].
    cbn. apply no_dispatch_in_failed_toggle.
  - intros u Hu. rewrite Hu. auto.
Qed.

Lemma toggles_update_flag_only_after_sdk_success_witness :
  call (calls inCallState) = Some outgoingCall ∧
  store (run (setMicrophone offlineWorld true) inCallState).2 = inCallState.
Proof.
  split; [reflexivity |].
  exact (proj1 (proj1 (toggles_update_flag_only_after_sdk_success
                         offlineWorld inCallState outgoingCall true eq_refl)
                      "offline" eq_refl)).
Defined.

(** *** Device refresh *)

(** C8.  On an audio-device refresh that enumerates [l]: with no microphone
    selected and [l] starting with [first], the refresh dispatches the
    selection of [first] exactly once, applies it to the device manager, and
    the store then selects [first]; with [selected] chosen but reported
    absent from [l], the refresh applies [selected] to the device manager
    again, dispatches no selection, and the store still selects
    [selected]. *)
Theorem updateAudioDevices_selects_first_or_reapplies
    (utils : Utils) (deviceManager : DeviceManager) (s : State)
    (l : list AudioDeviceInfo) :
  getMicrophoneList deviceManager = Fulfilled l →
  let r := run (updateAudioDevices utils deviceManager) s in
  (∀ first rest,
      audioDeviceInfo (devices s) = None → l = first :: rest →
      r.1 = Returned tt ∧
      trace r.2 = [MicrophoneListRequested;
                   Dispatched (SetAudioDeviceList l);
                   Dispatched (SetAudioDeviceInfo first);
                   SetMicrophoneInvoked first] ∧
      audioDeviceInfo (devices (store r.2)) = Some first) ∧
  (∀ selected,
      audioDeviceInfo (devices s) = Some selected →
      isSelectedAudioDeviceInList utils selected l = false →
      r.1 = Returned tt ∧
      trace r.2 = [MicrophoneListRequested;
                   Dispatched (SetAudioDeviceList l);
                   SetMicrophoneInvoked selected] ∧
      audioDeviceInfo (devices (store r.2)) = Some selected).
Proof.
  intros Hl r. subst r. unfold updateAudioDevices. step_thunk.
  rewrite Hl. cbn. split.
  - intros first rest Hnone ->. rewrite Hnone. cbn. auto.
  - intros selected Hsel Habsent. rewrite Hsel, Habsent. cbn. auto.
Qed.

Lemma updateAudioDevices_selects_first_or_reapplies_witness :
  getMicrophoneList sampleDeviceManager = Fulfilled [builtInMic; headsetMic] ∧
  audioDeviceInfo
    (devices (store (run (updateAudioDevices sampleUtils sampleDeviceManager)
                         idleState).2)) = Some builtInMic.
Proof.
  split; [reflexivity |].
  exact (proj2 (proj2 (proj1 (updateAudioDevices_selects_first_or_reapplies
                                sampleUtils sampleDeviceManager idleState
                                [builtInMic; headsetMic] eq_refl)
                             builtInMic [headsetMic] eq_refl eq_refl))).
Defined.

Lemma updateAudioDevices_empty_list utils deviceManager s :
  getMicrophoneList deviceManager = Fulfilled [] →
  audioDeviceInfo (devices s) = None →
  run (updateAudioDevices utils deviceManager) s =
  (Returned tt,
   {| store := reducer s (SetAudioDeviceList []);
      trace := [MicrophoneListRequested; Dispatched (SetAudioDeviceList [])] |}).
Proof.
  intros Hl Hnone. unfold updateAudioDevices. step_thunk.
  rewrite Hl. cbn. rewrite Hnone. reflexivity.
Qed.

(** C9.  On a video-device refresh with no video device selected, the
    refresh dispatches the selection of the head of the camera list whatever
    the list is; on an empty camera list that dispatch carries [undefined]
    ([None]) and the store's selection is [None] afterwards.  The audio
    refresh on an empty microphone list dispatches no selection. *)
Theorem updateVideoDevices_dispatches_head_unguarded
    (utils : Utils) (deviceManager : DeviceManager) (s : State) :
  videoDeviceInfo (devices s) = None →
  let cameraList := getCameraList deviceManager in
  let r := run (updateVideoDevices utils deviceManager) s in
  r = (Returned tt,
       {| store := reducer (reducer s (SetVideoDeviceList cameraList))
                           (SetVideoDeviceInfo (head cameraList));
          trace := [CameraListRequested;
                    Dispatched (SetVideoDeviceList cameraList);
                    Dispatched (SetVideoDeviceInfo (head cameraList))] |}) ∧
  (cameraList = [] →
     Dispatched (SetVideoDeviceInfo None) ∈ trace r.2 ∧
     videoDeviceInfo (devices (store r.2)) = None) ∧
  (∀ audioManager d,
     getMicrophoneList audioManager = Fulfilled [] →
     audioDeviceInfo (devices s) = None →
     Dispatched (SetAudioDeviceInfo d)
       ∉ trace (run (updateAudioDevices utils audioManager) s).2).
Proof.
  intros Hnone cameraList r.
  assert (Hr : r = (Returned tt,
       {| store := reducer (reducer s (SetVideoDeviceList cameraList))
                           (SetVideoDeviceInfo (head cameraList));
          trace := [CameraListRequested;
                    Dispatched (SetVideoDeviceList cameraList);
                    Dispatched (SetVideoDeviceInfo (head cameraList))] |})).
  { subst r. unfold updateVideoDevices. step_thunk. rewrite Hnone.
    reflexivity. }
  split; [exact Hr |]. split.
  - intros Hempty. rewrite Hr. cbn. rewrite Hempty. cbn.
    split; [| reflexivity].
    apply list_elem_of_In. cbn. auto.
  - intros audioManager d Hl Haudio.
    rewrite (updateAudioDevices_empty_list utils audioManager s Hl Haudio).
    cbn. intros Hin. apply list_elem_of_In in Hin.
    destruct Hin as [Heq | [Heq | []]]; discriminate Heq.
Qed.

Lemma updateVideoDevices_dispatches_head_unguarded_witness :
  videoDeviceInfo (devices idleState) = None ∧
  trace (run (updateVideoDevices sampleUtils sampleDeviceManager) idleState).2
  = [CameraListRequested; Dispatched (SetVideoDeviceList []);
     Dispatched (SetVideoDeviceInfo None)].
Proof.
  split; [reflexivity |].
  exact (f_equal (λ r, trace r.2)
           (proj1 (updateVideoDevices_dispatches_head_unguarded
                     sampleUtils sampleDeviceManager idleState eq_refl))).
Defined.

(** *** File download *)

(** What [getFile] does for a known user, by how the two awaits settle. *)
Lemma getFile_run world s uid fileId :
  userId s = Some uid →
  run (getFile world fileId) s =
  let url := fileUrl s fileId in
  let started := reducer s (SetFileIsDownloading fileId true) in
  let up := [Dispatched (SetFileIsDownloading fileId true);
             FetchIssued url uid] in
  match fetch world url uid with
  | Rejected e => (Threw e, {| store := started; trace := up |})
  | Fulfilled response =>
      match responseBlob world response with
      | Rejected e => (Threw e, {| store := started; trace := up |})
      | Fulfilled blob =>
          let objectUrl := createObjectURL world blob in
          (Returned tt,
           {| store := reducer (reducer started
                                  (SetFileBlobUrl fileId objectUrl))
                               (SetFileIsDownloading fileId false);
              trace := (up ++ [Dispatched (SetFileBlobUrl fileId objectUrl);
                               Dispatched (SetFileIsDownloading fileId false)])
                      |})
      end
  end.
Proof.
  intros Hu. unfold getFile, fileUrl. step_thunk. rewrite Hu. cbn.
  destruct (fetch world _ uid) as [response | e]; [| reflexivity].
  destruct (responseBlob world response); reflexivity.
Qed.

(** C10.  For [getFile] with a defined user id: the first effect is the
    dispatch setting the file's downloading flag to true and the second is
    the network request; a dispatch resetting the flag to false occurs only
    if the fetch resolved, and then after the request; if the fetch rejects,
    the thunk ends with that rejection uncaught, having dispatched nothing
    after the request, and a listed file is left marked as downloading. *)
Theorem getFile_flag_stuck_on_rejected_fetch
    (world : World) (s : State) (uid fileId : string) :
  userId s = Some uid →
  let url := fileUrl s fileId in
  let r := run (getFile world fileId) s in
  (∃ rest, trace r.2 = Dispatched (SetFileIsDownloading fileId true)
                        :: FetchIssued url uid :: rest) ∧
  (Dispatched (SetFileIsDownloading fileId false) ∈ trace r.2 →
     (∃ response, fetch world url uid = Fulfilled response) ∧
     ∃ between, trace r.2 =
       (Dispatched (SetFileIsDownloading fileId true) :: FetchIssued url uid
        :: between ++ [Dispatched (SetFileIsDownloading fileId false)])) ∧
  (∀ e, fetch world url uid = Rejected e →
     r.1 = Threw e ∧
     trace r.2 = [Dispatched (SetFileIsDownloading fileId true);
                  FetchIssued url uid] ∧
     store r.2 = reducer s (SetFileIsDownloading fileId true) ∧
     ∀ f, files s !! fileId = Some f →
          isDownloading <$> files (store r.2) !! fileId = Some true).
Proof.
  intros Hu url r. subst r. rewrite (getFile_run world s uid fileId Hu).
  cbv zeta. fold url.
  destruct (fetch world url uid) as [response | e] eqn:Hfetch.
  - destruct (responseBlob world response) as [blob | e'] eqn:Hblob; cbn.
    + split; [eauto |]. split; [| intros e He; discriminate He].
      intros _. split; [eauto |].
      exists [Dispatched (SetFileBlobUrl fileId (createObjectURL world blob))].
      reflexivity.
    + split; [eauto |]. split; [| intros e He; discriminate He].
      intros Hin. apply list_elem_of_In in Hin.
      destruct Hin as [Heq | [Heq | []]]; discriminate Heq.
  - cbn. split; [eauto |]. split.
    + intros Hin. apply list_elem_of_In in Hin.
      destruct Hin as [Heq | [Heq | []]]; discriminate Heq.
    + intros e0 He0. injection He0 as <-.
      repeat split. intros f Hf.
      rewrite lookup_alter_eq, Hf. reflexivity.
Qed.

Lemma getFile_flag_stuck_on_rejected_fetch_witness :
  userId idleState = Some "user-1" ∧
  isDownloading
    <$> files (store (run (getFile offlineWorld "file-1") idleState).2)
        !! "file-1" = Some true.
Proof.
  split; [reflexivity |].
  refine (proj2 (proj2 (proj2 (proj2 (proj2
            (getFile_flag_stuck_on_rejected_fetch
               offlineWorld idleState "user-1" "file-1" eq_refl))
            "offline" eq_refl))) _ _).
  reflexivity.
Defined.

(* ===================================================================== *)
(** ** Properties of the backend                                          *)
(* ===================================================================== *)

Import Server.

(** *** The stages of the upload route *)

Lemma upload_cases {Storage : Type} `{FileService Storage}
    (bufferFromBase64 : string → list byte)
    (multerSingle : MulterOptions → string → Request → bool)
    (env : Env) (req : Request) (st : Storage) :
  upload bufferFromBase64 multerSingle env req st =
  match fakeAuthMiddleware req with
  | inl r => (Responded r, st)
  | inr _ =>
      if multerRefuses multerSingle req
      then (Responded errorResponse, st)
      else uploadParsed bufferFromBase64 env req st
  end.
Proof.
  unfold upload, uploadParsed, route, uploadMiddlewareSingle.
  destruct (fakeAuthMiddleware req) as [r | uid]; [reflexivity |].
  unfold mbind, Handler_bind, respond, mret, Handler_ret.
  destruct (multerRefuses multerSingle req); reflexivity.
Qed.

(** *** Sorting *)

Lemma sortInsert_perm {A} (cmp : A → A → Z) (x : A) (xs : list A) :
  sortInsert cmp x xs ≡ₚ x :: xs.
Proof.
  induction xs as [| y xs IH]; cbn; [reflexivity |].
  destruct (cmp x y <=? 0)%Z; [reflexivity |].
  rewrite IH. apply Permutation_swap.
Qed.

Lemma arraySort_perm {A} (cmp : A → A → Z) (xs : list A) :
  arraySort cmp xs ≡ₚ xs.
Proof.
  unfold arraySort. induction xs as [| x xs IH]; cbn; [reflexivity |].
  rewrite sortInsert_perm, IH. reflexivity.
Qed.

Lemma sortInsert_newestFirst_sorted (x : FileMetadata) (xs : list FileMetadata) :
  StronglySorted newerOrSame xs →
  StronglySorted newerOrSame (sortInsert newestFirst x xs).
Proof.
  induction 1 as [| y xs Hsorted IH Hall]; cbn.
  - repeat constructor.
  - destruct (Z.leb_spec (newestFirst x y) 0) as [Hle | Hgt].
    + constructor; [constructor; assumption |].
      constructor.
      * unfold newerOrSame, newestFirst in *. lia.
      * eapply Forall_impl; [exact Hall |].
        intros z Hz. unfold newerOrSame, newestFirst in *. lia.
    + constructor; [exact IH |].
      rewrite sortInsert_perm. constructor; [| exact Hall].
      unfold newerOrSame, newestFirst in *. lia.
Qed.

Lemma arraySort_newestFirst_sorted (xs : list FileMetadata) :
  StronglySorted newerOrSame (arraySort newestFirst xs).
Proof.
  unfold arraySort. induction xs as [| x xs IH]; cbn.
  - constructor.
  - apply sortInsert_newestFirst_sorted, IH.
Qed.

Lemma StronglySorted_lookup_lt {A} (R : A → A → Prop) (l : list A) i j a b :
  StronglySorted R l → i < j → l !! i = Some a → l !! j = Some b → R a b.
Proof.
  intros Hsorted. revert i j. induction Hsorted as [| x l Hs IH Hall];
    intros i j Hij Hi Hj.
  - rewrite lookup_nil in Hi. discriminate.
  - destruct j as [| j]; [lia |]. cbn in Hj.
    destruct i as [| i]; cbn in Hi.
    + injection Hi as ->. rewrite Forall_forall in Hall.
      apply Hall. apply list_elem_of_lookup. eauto.
    + apply (IH i j); [lia | assumption | assumption].
Qed.

(** *** Routes over any file service *)

Example middleware_refuses_missing_header :
  fakeAuthMiddleware
    {| authorization := None; groupId := "group-1"; fileId := "";
       file := None; image := None; fileName := None;
     otherFields := [] |}
  = inl (sendStatus 403).
Proof. reflexivity. Qed.

Example middleware_refuses_other_prefix :
  fakeAuthMiddleware
    {| authorization := Some "admin"; groupId := "group-1"; fileId := "";
       file := None; image := None; fileName := None;
     otherFields := [] |}
  = inl (sendStatus 403).
Proof. reflexivity. Qed.

Example list_is_sorted_newest_first :
  arraySort newestFirst [photoMetadata; notesMetadata; photoMetadata]
  = [notesMetadata; photoMetadata; photoMetadata].
Proof. reflexivity. Qed.

Ltac step_route :=
  rewrite ?upload_cases;
  unfold listFiles, download, uploadParsed, registerUser, route,
    listFilesHandler, downloadHandler, uploadHandler, registerUserHandler,
    mbind, mret, Handler_bind, Handler_ret, awaitRead, awaitWrite, respond,
    throw, Server.tryCatch; cbn.

Section GenericRoutes.
Context {Storage : Type} `{FileService Storage}.
Variable bufferFromBase64 : string → list byte.
Variable multerSingle : MulterOptions → string → Request → bool.

(** What the upload route answers once the caller is known: the error
    response when multer refuses the body, else what the handler does. *)
Lemma upload_authorised (env : Env) (req : Request) (st : Storage)
    (uid : string) :
  fakeAuthMiddleware req = inr uid →
  upload bufferFromBase64 multerSingle env req st =
  if multerRefuses multerSingle req
  then (Responded errorResponse, st)
  else uploadParsed bufferFromBase64 env req st.
Proof. intros Hauth. rewrite upload_cases, Hauth. reflexivity. Qed.

(** C3, as amended.  For a request that passes the Authorization
    middleware, when the lookup of the caller's user-detail entries in the
    group finds none: the list and download routes answer 403; the upload
    route answers 403 when multer accepts the body, and the error response
    (500) when multer refuses it, which happens before the membership check;
    in every case the storage is left exactly as it was. *)
Theorem no_member_no_access (env : Env) (req : Request) (st : Storage)
    (uid : string) :
  fakeAuthMiddleware req = inr uid →
  getUserDetails (groupId req) uid st = inr [] →
  listFiles req st = (Responded (sendStatus 403), st) ∧
  download req st = (Responded (sendStatus 403), st) ∧
  upload bufferFromBase64 multerSingle env req st =
    (Responded (if multerRefuses multerSingle req
                then errorResponse else sendStatus 403), st).
Proof.
  intros Hauth Hnone. rewrite (upload_authorised env req st uid Hauth).
  step_route. rewrite Hauth, Hnone. cbn.
  destruct (multerRefuses multerSingle req); auto.
Qed.

Lemma listFiles_member (req : Request) (st : Storage) (uid : string)
    (users : list UserDetails) :
  fakeAuthMiddleware req = inr uid →
  getUserDetails (groupId req) uid st = inr users → users ≠ [] →
  listFiles req st =
  match getFilesForGroup (groupId req) st with
  | inr files => (Responded (send 200 (Json (arraySort newestFirst files))), st)
  | inl e => (Unhandled e, st)
  end.
Proof.
  intros Hauth Husers Hne. step_route. rewrite Hauth, Husers.
  destruct users as [| u users]; [congruence |]. cbn.
  destruct (getFilesForGroup (groupId req) st); reflexivity.
Qed.

Lemma fakeAuthMiddleware_refusal (req : Request) (r : Response) :
  fakeAuthMiddleware req = inl r → r = sendStatus 403.
Proof.
  unfold fakeAuthMiddleware.
  destruct (authorization req) as [authValue |]; [| congruence].
  destruct (_ || _); congruence.
Qed.

Lemma listFiles_200 (req : Request) (st st' : Storage) (resp : Response) :
  listFiles req st = (Responded resp, st') → status resp = 200 →
  ∃ files, getFilesForGroup (groupId req) st = inr files ∧
           resp = send 200 (Json (arraySort newestFirst files)) ∧ st' = st.
Proof.
  step_route.
  destruct (fakeAuthMiddleware req) as [r | uid] eqn:Hauth.
  { apply fakeAuthMiddleware_refusal in Hauth as ->.
    intros [= <- <-]. discriminate. }
  destruct (getUserDetails (groupId req) uid st) as [e | users]; cbn.
  { intros [=]. }
  destruct users as [| u users]; cbn.
  { intros [= <- <-]. discriminate. }
  destruct (getFilesForGroup (groupId req) st) as [e | files]; cbn.
  { intros [=]. }
  intros [= <- <-] _. eauto.
Qed.

(** C6.  When the list route answers 200, its body is the stored metadata
    of the group, rearranged (nothing added or dropped) so that every entry
    with a later upload time stands at a smaller index than every entry with
    an earlier upload time. *)
Theorem listFiles_newest_first (req : Request) (st st' : Storage)
    (resp : Response) :
  listFiles req st = (Responded resp, st') → status resp = 200 →
  ∃ stored listed,
    getFilesForGroup (groupId req) st = inr stored ∧
    body resp = Json listed ∧
    listed ≡ₚ stored ∧
    ∀ i j a b, listed !! i = Some a → listed !! j = Some b →
               (uploadDateTime b < uploadDateTime a)%Z → i < j.
Proof.
  intros Hrun Hstatus.
  destruct (listFiles_200 req st st' resp Hrun Hstatus)
    as (stored & Hstored & -> & _).
  exists stored, (arraySort newestFirst stored).
  split; [exact Hstored |]. split; [reflexivity |].
  split; [apply arraySort_perm |].
  intros i j a b Hi Hj Hlt.
  destruct (decide (i < j)) as [| Hge]; [assumption | exfalso].
  destruct (decide (i = j)) as [-> | Hne].
  - rewrite Hi in Hj. injection Hj as ->. lia.
  - assert (Hji : j < i) by lia.
    pose proof (StronglySorted_lookup_lt newerOrSame _ j i b a
                  (arraySort_newestFirst_sorted stored) Hji Hj Hi) as Hord.
    unfold newerOrSame in Hord. lia.
Qed.

(** C5, as amended.  For an upload request by a group member whose body
    multer accepts, the route answers 400 exactly when neither a multipart
    file nor a base64 image is supplied, or the [fileName] field is missing;
    when a file name and a file or an image are supplied and both storage
    writes succeed, it answers 204 and the storage is the one those writes
    leave. *)
Theorem upload_400_iff_no_media_or_no_name (env : Env) (req : Request)
    (st : Storage) (uid : string) (users : list UserDetails) :
  fakeAuthMiddleware req = inr uid →
  multerRefuses multerSingle req = false →
  getUserDetails (groupId req) uid st = inr users → users ≠ [] →
  let r := upload bufferFromBase64 multerSingle env req st in
  ((∃ resp, r.1 = Responded resp ∧ status resp = 400) ↔
   ((file req = None ∧ image req = None) ∨ fileName req = None)) ∧
  (∀ fname st1 st2,
     fileName req = Some fname →
     uploadFile (uuidv4 env) (submittedBytes bufferFromBase64 req) st = inr st1 →
     addFileMetadata (groupId req)
       {| id := uuidv4 env; name := fname; uploadDateTime := now env |} st1
       = inr st2 →
     ¬ (file req = None ∧ image req = None) →
     r = (Responded (sendStatus 204), st2)).
Proof.
  intros Hauth Haccepted Husers Hne r. subst r.
  rewrite (upload_authorised env req st uid Hauth), Haccepted.
  unfold submittedBytes. step_route. rewrite Hauth, Husers.
  destruct users as [| u users]; [congruence |]. cbn.
  destruct (file req) as [f |] eqn:Hfile; cbn.
  - destruct (fileName req) as [fname |] eqn:Hname; cbn.
    + split.
      * split.
        -- intros (resp & Hresp & Hstatus).
           destruct (uploadFile _ _ st) as [e | st1]; cbn in Hresp;
             [discriminate |].
           destruct (addFileMetadata _ _ st1) as [e | st2]; cbn in Hresp;
             [discriminate |].
           injection Hresp as <-. discriminate.
        -- intros [[Hf _] | Hn]; discriminate.
      * intros fname' st1 st2 [= <-] Hup Hadd _.
        rewrite Hup. cbn. rewrite Hadd. reflexivity.
    + split; [| intros ? ? ? [=]].
      split; [auto |]. intros _. eexists. split; reflexivity.
  - destruct (image req) as [img |] eqn:Himage; cbn.
    + destruct (fileName req) as [fname |] eqn:Hname; cbn.
      * split.
        -- split.
           ++ intros (resp & Hresp & Hstatus).
              destruct (uploadFile _ _ st) as [e | st1]; cbn in Hresp;
                [discriminate |].
              destruct (addFileMetadata _ _ st1) as [e | st2]; cbn in Hresp;
                [discriminate |].
              injection Hresp as <-. discriminate.
           ++ intros [[_ Hi] | Hn]; discriminate.
        -- intros fname' st1 st2 [= <-] Hup Hadd _.
           rewrite Hup. cbn. rewrite Hadd. reflexivity.
      * split; [| intros ? ? ? [=]].
        split; [auto |]. intros _. eexists. split; reflexivity.
    + split.
      * split; [auto |]. intros _. eexists. split; reflexivity.
      * intros fname st1 st2 _ _ _ Hno. exfalso. apply Hno. auto.
Qed.

End GenericRoutes.

Lemma no_member_no_access_witness :
  fakeAuthMiddleware fileRequest = inr "user-1" ∧
  getUserDetails (groupId fileRequest) "user-1" emptyStorage = inr [] ∧
  upload base64Decode sampleMulter firstDraw fileRequest emptyStorage
    = (Responded (sendStatus 403), emptyStorage).
Proof.
  split; [reflexivity |]. split; [reflexivity |].
  exact (proj2 (proj2 (no_member_no_access base64Decode sampleMulter
                         firstDraw fileRequest emptyStorage "user-1"
                         eq_refl eq_refl))).
Defined.

Lemma byteLength_textOfLength (n : N) : byteLength (textOfLength n) = n.
Proof.
  unfold textOfLength. induction n as [| n IH] using N.peano_ind;
    [reflexivity |].
  rewrite N.iter_succ. cbn [byteLength]. rewrite IH. reflexivity.
Qed.

Lemma sampleMulter_refuses_oversizeRequest :
  multerRefuses sampleMulter oversizeRequest = true.
Proof.
  unfold multerRefuses, sampleMulter. apply existsb_exists.
  exists (textOfLength (5 * 1024 * 1024 + 1)). split.
  - unfold textValues. apply in_or_app. left. left. reflexivity.
  - rewrite byteLength_textOfLength. reflexivity.
Qed.

(** C3, as stated, fails: a request that passes the Authorization
    middleware, from a caller with no user-detail entry, whose image field is
    one byte over the 5 MiB limit, is answered by the upload route with the
    error response (500), not with 403. *)
Lemma oversize_upload_by_non_member_answers_500 :
  fakeAuthMiddleware oversizeRequest = inr "user-1" ∧
  getUserDetails (groupId oversizeRequest) "user-1" emptyStorage = inr [] ∧
  upload base64Decode sampleMulter firstDraw oversizeRequest emptyStorage
    = (Responded errorResponse, emptyStorage) ∧
  status errorResponse ≠ 403.
Proof.
  split; [reflexivity |]. split; [reflexivity |]. split; [| discriminate].
  rewrite (upload_authorised base64Decode sampleMulter firstDraw
             oversizeRequest emptyStorage "user-1" eq_refl).
  rewrite sampleMulter_refuses_oversizeRequest. reflexivity.
Qed.

Lemma listFiles_newest_first_witness :
  listFiles (readRequest "") twoFilesStorage
    = (Responded (send 200 (Json [notesMetadata; photoMetadata])),
       twoFilesStorage) ∧
  ∃ stored listed,
    getFilesForGroup "group-1" twoFilesStorage = inr stored ∧
    Json [notesMetadata; photoMetadata] = Json listed ∧
    listed ≡ₚ stored ∧
    ∀ i j a b, listed !! i = Some a → listed !! j = Some b →
               (uploadDateTime b < uploadDateTime a)%Z → i < j.
Proof.
  split; [vm_compute; reflexivity |].
  refine (listFiles_newest_first (readRequest "") twoFilesStorage
            twoFilesStorage
            (send 200 (Json [notesMetadata; photoMetadata])) _ eq_refl).
  vm_compute. reflexivity.
Defined.

Lemma upload_400_iff_no_media_or_no_name_witness :
  fakeAuthMiddleware fileOnlyRequest = inr "user-1" ∧
  multerRefuses sampleMulter fileOnlyRequest = false ∧
  getUserDetails "group-1" "user-1" memberStorage
    = inr [{| memberGroupId := "group-1"; memberUserId := "user-1" |}] ∧
  ((∃ resp,
      (upload base64Decode sampleMulter firstDraw fileOnlyRequest memberStorage).1
        = Responded resp ∧ status resp = 400) ↔
   ((file fileOnlyRequest = None ∧ image fileOnlyRequest = None) ∨
    fileName fileOnlyRequest = None)).
Proof.
  split; [reflexivity |]. split; [reflexivity |]. split; [reflexivity |].
  refine (proj1 (upload_400_iff_no_media_or_no_name base64Decode
                   sampleMulter firstDraw fileOnlyRequest memberStorage
                   "user-1" _ eq_refl eq_refl eq_refl _)).
  discriminate.
Defined.

(** C5, as stated, fails: a member's upload that supplies a raw multipart
    file, and so meets the spec's condition, is answered 400 because the
    [fileName] field is missing. *)
Lemma upload_raw_file_without_name_answers_400 :
  fakeAuthMiddleware fileOnlyRequest = inr "user-1" ∧
  ("group-1", "user-1") ∈ userDetailsTable memberStorage ∧
  specSuppliesUpload fileOnlyRequest ∧
  (upload base64Decode sampleMulter firstDraw fileOnlyRequest memberStorage).1
    = Responded (send 400 (Text "Invalid file name")) ∧
  ¬ ((∃ resp,
        (upload base64Decode sampleMulter firstDraw fileOnlyRequest memberStorage).1
          = Responded resp ∧ status resp = 400) ↔
     ¬ specSuppliesUpload fileOnlyRequest).
Proof.
  assert (Hsupplied : specSuppliesUpload fileOnlyRequest).
  { left. cbn. eauto. }
  split; [reflexivity |].
  split; [apply (bool_decide_unpack _); vm_compute; exact I |].
  split; [exact Hsupplied |].
  split; [reflexivity |].
  intros [Hclaimed _]. apply Hclaimed; [| exact Hsupplied].
  eexists. split; reflexivity.
Qed.

(** *** Routes over blob and table storage *)

Ltac step_storage :=
  unfold getUserDetails, getFilesForGroup, getFileMetadata, downloadFile,
    uploadFile, addFileMetadata, addUserDetails, storageService,
    tableGetUserDetails, tableGetFileMetadata, blobDownloadFile,
    blobUploadFile, tableAddFileMetadata, tableAddUserDetails; cbn.

Lemma download_member (req : Request) (st : Storage) (uid : string) :
  fakeAuthMiddleware req = inr uid →
  (groupId req, uid) ∈ userDetailsTable st →
  download req st =
  match fileMetadataTable st !! (groupId req, fileId req) with
  | None => (Responded (sendStatus 404), st)
  | Some md =>
      match blobs st !! fileId req with
      | Some bytes =>
          (Responded {| status := 200; body := Bytes bytes;
                        attachment := Some (name md);
                        contentType := Some "application/octet-stream" |}, st)
      | None => (Unhandled (OtherError "BlobNotFound"), st)
      end
  end.
Proof.
  intros Hauth Hmember. step_route. rewrite Hauth. step_storage.
  rewrite bool_decide_eq_true_2 by exact Hmember. cbn.
  destruct (fileMetadataTable st !! _) as [md |]; cbn; [| reflexivity].
  destruct (blobs st !! _); reflexivity.
Qed.

(** C4.  For a download request by a group member on consistent storage:
    when the metadata table has no row for the group and file id, the route
    answers 404 (a response, not an uncaught exception); when it has one, the
    route answers 200 with the bytes of the blob, the content type
    [application/octet-stream] and an attachment disposition carrying the
    name in the row, which is the file name given at upload. *)
Theorem download_404_or_attachment (req : Request) (st : Storage)
    (uid : string) :
  fakeAuthMiddleware req = inr uid →
  (groupId req, uid) ∈ userDetailsTable st →
  consistent st →
  match fileMetadataTable st !! (groupId req, fileId req) with
  | None => download req st = (Responded (sendStatus 404), st)
  | Some md =>
      ∃ bytes,
        blobs st !! fileId req = Some bytes ∧
        download req st =
          (Responded {| status := 200; body := Bytes bytes;
                        attachment := Some (name md);
                        contentType := Some "application/octet-stream" |}, st)
  end.
Proof.
  intros Hauth Hmember Hcons.
  rewrite (download_member req st uid Hauth Hmember).
  destruct (fileMetadataTable st !! _) as [md |] eqn:Hmd; [| reflexivity].
  destruct (Hcons _ _ _ Hmd) as [bytes Hbytes].
  exists bytes. rewrite Hbytes. auto.
Qed.

Lemma download_200_bytes (req : Request) (st st' : Storage) (resp : Response) :
  download req st = (Responded resp, st') → status resp = 200 →
  ∃ bytes, blobs st !! fileId req = Some bytes ∧ body resp = Bytes bytes.
Proof.
  step_route.
  destruct (fakeAuthMiddleware req) as [r | uid] eqn:Hauth.
  { apply fakeAuthMiddleware_refusal in Hauth as ->.
    intros [= <- <-]. discriminate. }
  step_storage. destruct (bool_decide _); cbn.
  2: { intros [= <- <-]. discriminate. }
  destruct (fileMetadataTable st !! _) as [md |]; cbn.
  2: { intros [= <- <-]. discriminate. }
  destruct (blobs st !! _) as [bytes |]; cbn; [| intros [=]].
  intros [= <- <-] _. eauto.
Qed.

Section StorageRoutes.
Variable bufferFromBase64 : string → list byte.
Variable multerSingle : MulterOptions → string → Request → bool.

Lemma upload_storage (env : Env) (req : Request) (st : Storage) :
  let st' := (upload bufferFromBase64 multerSingle env req st).2 in
  st' = st ∨
  ∃ fname,
    fileName req = Some fname ∧
    (upload bufferFromBase64 multerSingle env req st).1 = Responded (sendStatus 204) ∧
    st' = {| blobs := <[uuidv4 env := submittedBytes bufferFromBase64 req]>
                        (blobs st);
             fileMetadataTable :=
               <[(groupId req, uuidv4 env) :=
                   {| id := uuidv4 env; name := fname;
                      uploadDateTime := now env |}]> (fileMetadataTable st);
             userDetailsTable := userDetailsTable st |}.
Proof.
  unfold submittedBytes. step_route.
  destruct (fakeAuthMiddleware req) as [r | uid]; [auto |].
  destruct (multerRefuses multerSingle req); [auto |].
  step_storage. destruct (bool_decide _); cbn; [| auto].
  destruct (file req) as [f |]; cbn.
  - destruct (fileName req) as [fname |]; cbn; [| auto]. right. eauto.
  - destruct (image req) as [img |]; cbn; [| auto].
    destruct (fileName req) as [fname |]; cbn; [| auto]. right. eauto.
Qed.

Lemma upload_204 (env : Env) (req : Request) (st st' : Storage) (resp : Response) :
  upload bufferFromBase64 multerSingle env req st = (Responded resp, st') →
  status resp = 204 →
  ∃ fname,
    fileName req = Some fname ∧
    st' = {| blobs := <[uuidv4 env := submittedBytes bufferFromBase64 req]>
                        (blobs st);
             fileMetadataTable :=
               <[(groupId req, uuidv4 env) :=
                   {| id := uuidv4 env; name := fname;
                      uploadDateTime := now env |}]> (fileMetadataTable st);
             userDetailsTable := userDetailsTable st |}.
Proof.
  unfold submittedBytes. step_route.
  destruct (fakeAuthMiddleware req) as [r | uid] eqn:Hauth.
  { apply fakeAuthMiddleware_refusal in Hauth as ->.
    intros [= <- <-]. discriminate. }
  destruct (multerRefuses multerSingle req).
  { intros [= <- <-]. discriminate. }
  step_storage. destruct (bool_decide _); cbn.
  2: { intros [= <- <-]. discriminate. }
  destruct (file req) as [f |]; cbn.
  - destruct (fileName req) as [fname |]; cbn.
    2: { intros [= <- <-]. discriminate. }
    intros [= <- <-] _. eauto.
  - destruct (image req) as [img |]; cbn.
    2: { intros [= <- <-]. discriminate. }
    destruct (fileName req) as [fname |]; cbn.
    2: { intros [= <- <-]. discriminate. }
    intros [= <- <-] _. eauto.
Qed.

Lemma reads_keep_storage (req : Request) (st : Storage) :
  (listFiles req st).2 = st ∧ (download req st).2 = st.
Proof.
  step_route. destruct (fakeAuthMiddleware req) as [r | uid]; [auto |].
  step_storage. destruct (bool_decide _); cbn; [| auto].
  split; [reflexivity |].
  destruct (fileMetadataTable st !! _) as [md |]; cbn; [| reflexivity].
  destruct (blobs st !! _); reflexivity.
Qed.

Lemma registerUser_storage (req : Request) (st : Storage) :
  blobs (registerUser req st).2 = blobs st ∧
  fileMetadataTable (registerUser req st).2 = fileMetadataTable st.
Proof.
  step_route. destruct (fakeAuthMiddleware req) as [r | uid]; auto.
Qed.

Lemma serve_keeps_file (r : ServerRequest) (st : Storage) (g fid : string) :
  drawsOtherId fid r →
  blobs (serve bufferFromBase64 multerSingle r st).2 !! fid = blobs st !! fid ∧
  fileMetadataTable (serve bufferFromBase64 multerSingle r st).2 !! (g, fid)
    = fileMetadataTable st !! (g, fid).
Proof.
  intros Hother. destruct r as [req | req | env req | req]; cbn [serve].
  - rewrite (proj1 (reads_keep_storage req st)). auto.
  - rewrite (proj2 (reads_keep_storage req st)). auto.
  - cbn in Hother.
    destruct (upload_storage env req st) as [-> | (fname & _ & _ & ->)];
      [auto |].
    cbn. rewrite !lookup_insert_ne by congruence. auto.
  - destruct (registerUser_storage req st) as [-> ->]. auto.
Qed.

Lemma serveAll_keeps_file (rs : list ServerRequest) (st : Storage)
    (g fid : string) :
  Forall (drawsOtherId fid) rs →
  blobs (serveAll bufferFromBase64 multerSingle rs st) !! fid = blobs st !! fid ∧
  fileMetadataTable (serveAll bufferFromBase64 multerSingle rs st) !! (g, fid)
    = fileMetadataTable st !! (g, fid).
Proof.
  intros Hall. revert st. induction Hall as [| r rs Hr _ IH]; intros st.
  - auto.
  - unfold serveAll in *. cbn [foldl].
    destruct (IH (serve bufferFromBase64 multerSingle r st).2) as [-> ->].
    apply serve_keeps_file, Hr.
Qed.

(** C2.  After an upload that answered 204 with the id it drew, and after
    any further requests whose uploads draw other ids: every download of that
    id that answers 200 carries exactly the bytes the upload submitted (the
    multipart buffer, or the decoded image), and a download of that id in
    the upload's group by a registered member does answer 200, with those
    bytes and the uploaded file name. *)
Theorem upload_then_download_same_bytes (env : Env) (req : Request)
    (st st' : Storage) (later : list ServerRequest) (reqd : Request) :
  upload bufferFromBase64 multerSingle env req st = (Responded (sendStatus 204), st') →
  Forall (drawsOtherId (uuidv4 env)) later →
  fileId reqd = uuidv4 env →
  let final := serveAll bufferFromBase64 multerSingle later st' in
  (∀ resp after,
     download reqd final = (Responded resp, after) → status resp = 200 →
     body resp = Bytes (submittedBytes bufferFromBase64 req)) ∧
  (∀ uid,
     fakeAuthMiddleware reqd = inr uid →
     (groupId reqd, uid) ∈ userDetailsTable final →
     groupId reqd = groupId req →
     download reqd final =
       (Responded {| status := 200;
                     body := Bytes (submittedBytes bufferFromBase64 req);
                     attachment := fileName req;
                     contentType := Some "application/octet-stream" |},
        final)).
Proof.
  intros Hup Hlater Hid final.
  destruct (upload_204 env req st st' _ Hup eq_refl) as (fname & Hname & Hst').
  destruct (serveAll_keeps_file later st' (groupId req) (uuidv4 env) Hlater)
    as [Hblob Hrow].
  fold final in Hblob, Hrow. rewrite Hst' in Hblob, Hrow. cbn in Hblob, Hrow.
  rewrite lookup_insert_eq in Hblob. rewrite lookup_insert_eq in Hrow.
  split.
  - intros resp after Hdown Hstatus.
    destruct (download_200_bytes reqd final after resp Hdown Hstatus)
      as (bytes & Hbytes & ->).
    rewrite Hid, Hblob in Hbytes. congruence.
  - intros uid Hauth Hmember Hgroup.
    rewrite (download_member reqd final uid Hauth Hmember).
    rewrite Hgroup, Hid, Hrow, Hblob, Hname. reflexivity.
Qed.

Lemma serve_consistent (r : ServerRequest) (st : Storage) :
  consistent st → consistent (serve bufferFromBase64 multerSingle r st).2.
Proof.
  intros Hcons. destruct r as [req | req | env req | req]; cbn [serve].
  - rewrite (proj1 (reads_keep_storage req st)). exact Hcons.
  - rewrite (proj2 (reads_keep_storage req st)). exact Hcons.
  - destruct (upload_storage env req st) as [-> | (fname & _ & _ & ->)];
      [exact Hcons |].
    intros g f md. cbn. intros Hrow.
    destruct (decide (f = uuidv4 env)) as [-> | Hne].
    + rewrite lookup_insert_eq. eauto.
    + rewrite lookup_insert_ne in Hrow by congruence.
      rewrite lookup_insert_ne by congruence. eapply Hcons, Hrow.
  - destruct (registerUser_storage req st) as [Hb Ht].
    intros g f md. rewrite Hb, Ht. apply Hcons.
Qed.

Lemma serveAll_consistent (rs : list ServerRequest) (st : Storage) :
  consistent st → consistent (serveAll bufferFromBase64 multerSingle rs st).
Proof.
  revert st. induction rs as [| r rs IH]; intros st Hcons; [exact Hcons |].
  unfold serveAll in *. cbn [foldl]. apply IH, serve_consistent, Hcons.
Qed.

End StorageRoutes.

Lemma emptyStorage_consistent : consistent emptyStorage.
Proof. intros g f md. cbn. rewrite lookup_empty. discriminate. Qed.

Lemma memberStorage_consistent : consistent memberStorage.
Proof. intros g f md. cbn. rewrite lookup_empty. discriminate. Qed.

Lemma photoStorage_consistent : consistent photoStorage.
Proof.
  exact (serve_consistent base64Decode sampleMulter (Upload firstDraw imageRequest)
           memberStorage memberStorage_consistent).
Qed.

Lemma download_404_or_attachment_witness :
  fakeAuthMiddleware (readRequest "id-1") = inr "user-1" ∧
  ("group-1", "user-1") ∈ userDetailsTable photoStorage ∧
  consistent photoStorage ∧
  ∃ bytes,
    blobs photoStorage !! "id-1" = Some bytes ∧
    download (readRequest "id-1") photoStorage =
      (Responded {| status := 200; body := Bytes bytes;
                    attachment := Some "user_photo.png";
                    contentType := Some "application/octet-stream" |},
       photoStorage).
Proof.
  assert (Hmember : ("group-1", "user-1") ∈ userDetailsTable photoStorage).
  { apply (bool_decide_unpack _). vm_compute. exact I. }
  split; [reflexivity |]. split; [exact Hmember |].
  split; [exact photoStorage_consistent |].
  exact (download_404_or_attachment (readRequest "id-1") photoStorage
           "user-1" eq_refl Hmember photoStorage_consistent).
Defined.

Lemma upload_then_download_same_bytes_witness :
  upload base64Decode sampleMulter firstDraw imageRequest memberStorage
    = (Responded (sendStatus 204), photoStorage) ∧
  Forall (drawsOtherId "id-1") [Upload secondDraw fileRequest] ∧
  download (readRequest "id-1") twoFilesStorage =
    (Responded {| status := 200; body := Bytes [x68; x69];
                  attachment := Some "user_photo.png";
                  contentType := Some "application/octet-stream" |},
     twoFilesStorage).
Proof.
  assert (Hlater : Forall (drawsOtherId "id-1") [Upload secondDraw fileRequest]).
  { repeat constructor. cbn. discriminate. }
  assert (Hmember : ("group-1", "user-1") ∈ userDetailsTable twoFilesStorage).
  { apply (bool_decide_unpack _). vm_compute. exact I. }
  split; [reflexivity |]. split; [exact Hlater |].
  exact (proj2 (upload_then_download_same_bytes base64Decode sampleMulter firstDraw
                  imageRequest memberStorage photoStorage
                  [Upload secondDraw fileRequest] (readRequest "id-1")
                  eq_refl Hlater eq_refl)
               "user-1" eq_refl Hmember eq_refl).
Defined.

(* ===================================================================== *)
(** ** Further properties of the backend                                  *)
(* ===================================================================== *)

(** *** The middleware *)

Lemma prefix_user_nonempty (authValue : string) :
  String.prefix "user" authValue = true → String.eqb authValue "" = false.
Proof. destruct authValue; [discriminate | reflexivity]. Qed.

(** X1.  The middleware lets a request through exactly when its
    Authorization header is present and starts with [user]; the caller's id
    is then the header value itself. *)
Theorem fakeAuthMiddleware_passes_iff_user_prefix
    (req : Request) (uid : string) :
  fakeAuthMiddleware req = inr uid ↔
  authorization req = Some uid ∧ String.prefix "user" uid = true.
Proof.
  unfold fakeAuthMiddleware. split.
  - destruct (authorization req) as [authValue |]; [| discriminate].
    destruct (String.eqb authValue ""); cbn; [discriminate |].
    destruct (String.prefix "user" authValue) eqn:Hprefix; cbn;
      [| discriminate].
    intros [= <-]. auto.
  - intros [-> Hprefix].
    rewrite (prefix_user_nonempty uid Hprefix), Hprefix. reflexivity.
Qed.

Section FurtherGenericRoutes.
Context {Storage : Type} `{FileService Storage}.
Variable bufferFromBase64 : string → list byte.
Variable multerSingle : MulterOptions → string → Request → bool.

(** X2.  A request the middleware refuses is answered 403 by each of the
    four routes, with the storage untouched: no handler runs. *)
Theorem refused_request_reaches_no_handler
    (env : Env) (req : Request) (st : Storage) (refusal : Response) :
  fakeAuthMiddleware req = inl refusal →
  listFiles req st = (Responded (sendStatus 403), st) ∧
  download req st = (Responded (sendStatus 403), st) ∧
  upload bufferFromBase64 multerSingle env req st = (Responded (sendStatus 403), st) ∧
  registerUser req st = (Responded (sendStatus 403), st).
Proof.
  intros Hauth.
  pose proof (fakeAuthMiddleware_refusal req refusal Hauth) as ->.
  unfold listFiles, download, upload, registerUser, route.
  rewrite Hauth. auto.
Qed.

(** X3.  Whatever the file service and multer do, the list route only ever
    answers 403 or 200, the download route 403, 404 or 200, the upload route
    403,
    500, 400 or 204 (500 being the answer to a body multer refuses), and the
    registration route 403 or 204. *)
Theorem routes_answer_only_their_statuses
    (env : Env) (req : Request) (st : Storage) :
  (∀ resp st', listFiles req st = (Responded resp, st') →
               status resp ∈ [403; 200]) ∧
  (∀ resp st', download req st = (Responded resp, st') →
               status resp ∈ [403; 404; 200]) ∧
  (∀ resp st', upload bufferFromBase64 multerSingle env req st = (Responded resp, st') →
               status resp ∈ [403; 500; 400; 204]) ∧
  (∀ resp st', registerUser req st = (Responded resp, st') →
               status resp ∈ [403; 204]).
Proof.
  step_route.
  destruct (fakeAuthMiddleware req) as [r | uid] eqn:Hauth.
  { apply fakeAuthMiddleware_refusal in Hauth as ->.
    repeat split; intros resp st' [= <- <-]; cbn; set_solver. }
  repeat split; intros resp st'.
  - destruct (getUserDetails (groupId req) uid st) as [e | users]; cbn;
      [discriminate |].
    destruct (length users =? 0); cbn; [intros [= <- <-]; cbn; set_solver |].
    destruct (getFilesForGroup (groupId req) st); cbn; [discriminate |].
    intros [= <- <-]; cbn; set_solver.
  - destruct (getUserDetails (groupId req) uid st) as [e | users]; cbn;
      [discriminate |].
    destruct (length users =? 0); cbn; [intros [= <- <-]; cbn; set_solver |].
    destruct (getFileMetadata (groupId req) (fileId req) st) as [[| msg] | md];
      cbn; [intros [= <- <-]; cbn; set_solver | discriminate |].
    destruct (downloadFile (fileId req) st); cbn; [discriminate |].
    intros [= <- <-]; cbn; set_solver.
  - destruct (multerRefuses multerSingle req);
      [intros [= <- <-]; cbn; set_solver |].
    destruct (getUserDetails (groupId req) uid st) as [e | users]; cbn;
      [discriminate |].
    destruct (length users =? 0); cbn; [intros [= <- <-]; cbn; set_solver |].
    destruct (isUndefined (file req) && isUndefined (image req)); cbn;
      [intros [= <- <-]; cbn; set_solver |].
    destruct (fileName req) as [fname |]; cbn;
      [| intros [= <- <-]; cbn; set_solver].
    destruct (file req) as [f |]; cbn.
    + destruct (uploadFile _ _ st) as [e | st1]; cbn; [discriminate |].
      destruct (addFileMetadata _ _ st1); cbn; [discriminate |].
      intros [= <- <-]; cbn; set_solver.
    + destruct (uploadFile _ _ st) as [e | st1]; cbn; [discriminate |].
      destruct (addFileMetadata _ _ st1); cbn; [discriminate |].
      intros [= <- <-]; cbn; set_solver.
  - destruct (addUserDetails (groupId req) uid st); cbn; [discriminate |].
    intros [= <- <-]; cbn; set_solver.
Qed.

End FurtherGenericRoutes.

Import Scenarios.

Lemma refused_request_reaches_no_handler_witness :
  fakeAuthMiddleware anonymousRequest = inl (sendStatus 403) ∧
  registerUser anonymousRequest emptyStorage
    = (Responded (sendStatus 403), emptyStorage).
Proof.
  split; [reflexivity |].
  exact (proj2 (proj2 (proj2 (refused_request_reaches_no_handler base64Decode sampleMulter
                                firstDraw anonymousRequest emptyStorage
                                (sendStatus 403) eq_refl)))).
Defined.

Section FurtherRouteErrors.
Context {Storage : Type} `{FileService Storage}.
Variable bufferFromBase64 : string → list byte.
Variable multerSingle : MulterOptions → string → Request → bool.

(** X4.  Only a 204 changes the storage: the list and download routes
    return it unchanged whatever happens, and every response of the upload
    and registration routes other than 204 comes with the storage
    unchanged. *)
Theorem only_204_changes_storage (env : Env) (req : Request) (st : Storage) :
  (listFiles req st).2 = st ∧
  (download req st).2 = st ∧
  (∀ resp st', upload bufferFromBase64 multerSingle env req st = (Responded resp, st') →
               status resp ≠ 204 → st' = st) ∧
  (∀ resp st', registerUser req st = (Responded resp, st') →
               status resp ≠ 204 → st' = st).
Proof.
  step_route.
  destruct (fakeAuthMiddleware req) as [r | uid].
  { repeat split; intros resp st' [= _ <-]; reflexivity. }
  split; [| split; [| split]].
  - destruct (getUserDetails (groupId req) uid st) as [e | users]; cbn;
      [reflexivity |].
    destruct (length users =? 0); cbn; [reflexivity |].
    destruct (getFilesForGroup (groupId req) st); reflexivity.
  - destruct (getUserDetails (groupId req) uid st) as [e | users]; cbn;
      [reflexivity |].
    destruct (length users =? 0); cbn; [reflexivity |].
    destruct (getFileMetadata (groupId req) (fileId req) st) as [[| msg] | md];
      cbn; [reflexivity | reflexivity |].
    destruct (downloadFile (fileId req) st); reflexivity.
  - intros resp st'.
    destruct (multerRefuses multerSingle req);
      [intros [= _ <-]; reflexivity |].
    destruct (getUserDetails (groupId req) uid st) as [e | users]; cbn;
      [discriminate |].
    destruct (length users =? 0); cbn; [intros [= _ <-]; reflexivity |].
    destruct (isUndefined (file req) && isUndefined (image req)); cbn;
      [intros [= _ <-]; reflexivity |].
    destruct (fileName req) as [fname |]; cbn;
      [| intros [= _ <-]; reflexivity].
    destruct (file req) as [f |]; cbn.
    + destruct (uploadFile _ _ st) as [e | st1]; cbn; [discriminate |].
      destruct (addFileMetadata _ _ st1); cbn; [discriminate |].
      intros [= <- _] Hstatus. cbn in Hstatus. congruence.
    + destruct (uploadFile _ _ st) as [e | st1]; cbn; [discriminate |].
      destruct (addFileMetadata _ _ st1); cbn; [discriminate |].
      intros [= <- _] Hstatus. cbn in Hstatus. congruence.
  - intros resp st'.
    destruct (addUserDetails (groupId req) uid st); cbn; [discriminate |].
    intros [= <- _] Hstatus. cbn in Hstatus. congruence.
Qed.

(** X5.  For a download by a group member: an error of the metadata lookup
    other than [FileServiceError] is not turned into 404 but leaves the
    handler uncaught, and so does any error of the blob read that follows a
    successful lookup; in both cases no response is sent. *)
Theorem download_rethrows_other_errors
    (req : Request) (st : Storage) (uid : string) (users : list UserDetails) :
  fakeAuthMiddleware req = inr uid →
  getUserDetails (groupId req) uid st = inr users → users ≠ [] →
  (∀ msg, getFileMetadata (groupId req) (fileId req) st
            = inl (OtherError msg) →
          download req st = (Unhandled (OtherError msg), st)) ∧
  (∀ md e, getFileMetadata (groupId req) (fileId req) st = inr md →
           downloadFile (fileId req) st = inl e →
           download req st = (Unhandled e, st)).
Proof.
  intros Hauth Husers Hne. step_route. rewrite Hauth, Husers.
  destruct users as [| u users]; [congruence |]. cbn. split.
  - intros msg ->. reflexivity.
  - intros md e -> ->. reflexivity.
Qed.

(** X6.  When a request carries a multipart file and multer accepts its
    body, the upload route ignores its image field: outcome and storage are
    those of the same request sent without the image (a body multer accepts
    as well). *)
Theorem upload_file_takes_precedence_over_image
    (env : Env) (req : Request) (st : Storage) :
  is_Some (file req) →
  multerRefuses multerSingle req = false →
  multerRefuses multerSingle (withoutImage req) = false →
  upload bufferFromBase64 multerSingle env req st
  = upload bufferFromBase64 multerSingle env (withoutImage req) st.
Proof.
  intros [f Hf] Haccepted Haccepted'. rewrite !upload_cases.
  rewrite Haccepted, Haccepted'. step_route.
  destruct (fakeAuthMiddleware req) as [r | uid] eqn:Hauth.
  - unfold fakeAuthMiddleware in *. cbn. rewrite Hauth. reflexivity.
  - unfold fakeAuthMiddleware in *. cbn. rewrite Hauth, Hf. reflexivity.
Qed.

(** X7.  For a well-formed upload by a group member, with a body multer
    accepts: when the blob write
    fails, the metadata write is not attempted and the storage is unchanged;
    when the blob write succeeds and the metadata write fails, the handler is
    left uncaught and the storage keeps the blob that was just written (there
    is no rollback). *)
Theorem upload_keeps_blob_when_metadata_write_fails
    (env : Env) (req : Request) (st : Storage) (uid fname : string)
    (users : list UserDetails) :
  fakeAuthMiddleware req = inr uid →
  multerRefuses multerSingle req = false →
  getUserDetails (groupId req) uid st = inr users → users ≠ [] →
  fileName req = Some fname →
  ¬ (file req = None ∧ image req = None) →
  let bytes := submittedBytes bufferFromBase64 req in
  let row := {| id := uuidv4 env; name := fname;
                uploadDateTime := now env |} in
  (∀ e, uploadFile (uuidv4 env) bytes st = inl e →
        upload bufferFromBase64 multerSingle env req st = (Unhandled e, st)) ∧
  (∀ st1 e, uploadFile (uuidv4 env) bytes st = inr st1 →
            addFileMetadata (groupId req) row st1 = inl e →
            upload bufferFromBase64 multerSingle env req st = (Unhandled e, st1)).
Proof.
  intros Hauth Haccepted Husers Hne Hname Hmedia bytes row. subst bytes row.
  rewrite (upload_authorised bufferFromBase64 multerSingle env req st uid
             Hauth), Haccepted.
  unfold submittedBytes. step_route. rewrite Hauth, Husers, Hname.
  destruct users as [| u users]; [congruence |]. cbn.
  destruct (file req) as [f |]; cbn.
  - split.
    + intros e ->. reflexivity.
    + intros st1 e -> Hrow. cbn. rewrite Hrow. reflexivity.
  - destruct (image req) as [img |]; cbn; [| exfalso; auto].
    split.
    + intros e ->. reflexivity.
    + intros st1 e -> Hrow. cbn. rewrite Hrow. reflexivity.
Qed.

End FurtherRouteErrors.

Lemma download_rethrows_other_errors_witness :
  fakeAuthMiddleware (readRequest "id-1") = inr "user-1" ∧
  @getUserDetails Storage tableOutage "group-1" "user-1" photoStorage
    = inr [{| memberGroupId := "group-1"; memberUserId := "user-1" |}] ∧
  @download Storage tableOutage (readRequest "id-1") photoStorage
    = (Unhandled (OtherError "table unavailable"), photoStorage).
Proof.
  split; [reflexivity |]. split; [vm_compute; reflexivity |].
  refine (proj1 (@download_rethrows_other_errors Storage tableOutage
                   (readRequest "id-1") photoStorage "user-1" _
                   eq_refl _ _) "table unavailable" eq_refl).
  - vm_compute. reflexivity.
  - discriminate.
Defined.

Lemma upload_file_takes_precedence_over_image_witness :
  is_Some (file fileAndImageRequest) ∧
  multerRefuses sampleMulter fileAndImageRequest = false ∧
  multerRefuses sampleMulter (withoutImage fileAndImageRequest) = false ∧
  (upload base64Decode sampleMulter firstDraw fileAndImageRequest
     memberStorage).2
  = (upload base64Decode sampleMulter firstDraw fileRequest memberStorage).2.
Proof.
  split; [cbn; eauto |]. split; [reflexivity |]. split; [reflexivity |].
  exact (f_equal snd (upload_file_takes_precedence_over_image base64Decode
                        sampleMulter firstDraw fileAndImageRequest
                        memberStorage (ex_intro _ _ eq_refl)
                        eq_refl eq_refl)).
Defined.

Lemma upload_keeps_blob_when_metadata_write_fails_witness :
  fakeAuthMiddleware fileRequest = inr "user-1" ∧
  multerRefuses sampleMulter fileRequest = false ∧
  fileName fileRequest = Some "notes.txt" ∧
  ¬ (file fileRequest = None ∧ image fileRequest = None) ∧
  blobs (@upload Storage tableOutage base64Decode sampleMulter firstDraw
           fileRequest memberStorage).2 !! "id-1" = Some [x01; x02; x03].
Proof.
  assert (Hmedia : ¬ (file fileRequest = None ∧ image fileRequest = None)).
  { intros [Hfile _]. discriminate Hfile. }
  split; [reflexivity |]. split; [reflexivity |]. split; [reflexivity |].
  split; [exact Hmedia |].
  rewrite (proj2 (@upload_keeps_blob_when_metadata_write_fails Storage
                    tableOutage base64Decode sampleMulter firstDraw
                    fileRequest memberStorage "user-1" "notes.txt"
                    [{| memberGroupId := "group-1";
                        memberUserId := "user-1" |}]
                    eq_refl eq_refl eq_refl ltac:(discriminate) eq_refl
                    Hmedia)
                 _ (OtherError "table unavailable") eq_refl eq_refl).
  reflexivity.
Defined.

(** *** Listing *)

Lemma arraySort_fixes_sorted (files : list FileMetadata) :
  StronglySorted newerOrSame files → arraySort newestFirst files = files.
Proof.
  unfold arraySort. induction 1 as [| x files Hsorted IH Hall];
    [reflexivity |].
  cbn. rewrite IH. destruct files as [| y files]; [reflexivity |].
  cbn. apply Forall_cons in Hall as [Hxy _].
  unfold newerOrSame in Hxy. unfold newestFirst.
  destruct (Z.leb_spec (uploadDateTime y - uploadDateTime x) 0);
    [reflexivity | lia].
Qed.

(** X8.  When the file service already returns a group's rows newest
    first, a member's listing answers 200 with exactly that list: rows with
    equal upload times keep the order the service gave them. *)
Theorem listFiles_keeps_newest_first_order
    {Storage : Type} `{FileService Storage}
    (req : Request) (st : Storage) (uid : string)
    (users : list UserDetails) (files : list FileMetadata) :
  fakeAuthMiddleware req = inr uid →
  getUserDetails (groupId req) uid st = inr users → users ≠ [] →
  getFilesForGroup (groupId req) st = inr files →
  StronglySorted newerOrSame files →
  listFiles req st = (Responded (send 200 (Json files)), st).
Proof.
  intros Hauth Husers Hne Hfiles Hsorted.
  rewrite (listFiles_member req st uid users Hauth Husers Hne), Hfiles.
  rewrite (arraySort_fixes_sorted files Hsorted). reflexivity.
Qed.

Lemma listFiles_keeps_newest_first_order_witness :
  fakeAuthMiddleware (readRequest "") = inr "user-1" ∧
  StronglySorted newerOrSame
    [notesMetadata; photoMetadata; Scenarios.photoCopyMetadata] ∧
  @listFiles _ Scenarios.rowsService (readRequest "")
    [notesMetadata; photoMetadata; Scenarios.photoCopyMetadata]
  = (Responded
       (send 200 (Json [notesMetadata; photoMetadata;
                        Scenarios.photoCopyMetadata])),
     [notesMetadata; photoMetadata; Scenarios.photoCopyMetadata]).
Proof.
  assert (Hsorted : StronglySorted newerOrSame
            [notesMetadata; photoMetadata; Scenarios.photoCopyMetadata]).
  { repeat constructor; unfold newerOrSame; cbn; lia. }
  split; [reflexivity |]. split; [exact Hsorted |].
  refine (@listFiles_keeps_newest_first_order _ Scenarios.rowsService
            (readRequest "") _ "user-1"
            [{| memberGroupId := "group-1"; memberUserId := "user-1" |}]
            _ eq_refl eq_refl _ eq_refl Hsorted).
  discriminate.
Defined.

(** *** Membership and files on blob and table storage *)

Section FurtherStorageRoutes.
Variable bufferFromBase64 : string → list byte.
Variable multerSingle : MulterOptions → string → Request → bool.

Lemma registerUser_member (req : Request) (st : Storage) (uid : string) :
  fakeAuthMiddleware req = inr uid →
  registerUser req st =
  (Responded (sendStatus 204),
   {| blobs := blobs st; fileMetadataTable := fileMetadataTable st;
      userDetailsTable := {[ (groupId req, uid) ]} ∪ userDetailsTable st |}).
Proof. intros Hauth. step_route. rewrite Hauth. reflexivity. Qed.

Lemma serve_keeps_members (r : ServerRequest) (st : Storage) :
  userDetailsTable st ⊆ userDetailsTable (serve bufferFromBase64 multerSingle r st).2.
Proof.
  destruct r as [req | req | env req | req]; cbn [serve].
  - rewrite (proj1 (reads_keep_storage req st)). done.
  - rewrite (proj2 (reads_keep_storage req st)). done.
  - destruct (upload_storage bufferFromBase64 multerSingle env req st)
      as [-> | (fname & _ & _ & ->)]; done.
  - destruct (fakeAuthMiddleware req) as [refusal | uid] eqn:Hauth.
    + unfold registerUser, route. rewrite Hauth. done.
    + rewrite (registerUser_member req st uid Hauth). cbn. set_solver.
Qed.

Lemma serveAll_keeps_members (rs : list ServerRequest) (st : Storage) :
  userDetailsTable st ⊆ userDetailsTable (serveAll bufferFromBase64 multerSingle rs st).
Proof.
  revert st. induction rs as [| r rs IH]; intros st; [done |].
  unfold serveAll in *. cbn [foldl].
  etrans; [apply (serve_keeps_members r) | apply IH].
Qed.

Lemma listFiles_storage_member (req : Request) (st : Storage) (uid : string) :
  fakeAuthMiddleware req = inr uid →
  (groupId req, uid) ∈ userDetailsTable st →
  ∃ listed,
    listFiles req st = (Responded (send 200 (Json listed)), st) ∧
    ∀ md, md ∈ listed ↔
          ∃ f, fileMetadataTable st !! (groupId req, f) = Some md.
Proof.
  intros Hauth Hmember.
  assert (Husers : getUserDetails (groupId req) uid st
                   = inr [{| memberGroupId := groupId req;
                             memberUserId := uid |}]).
  { step_storage. rewrite bool_decide_eq_true_2 by exact Hmember.
    reflexivity. }
  eexists. split.
  - rewrite (listFiles_member req st uid _ Hauth Husers ltac:(discriminate)).
    reflexivity.
  - intros md. rewrite arraySort_perm.
    rewrite list_elem_of_fmap. split.
    + intros ([[g f] md'] & -> & Hin). cbn.
      apply list_elem_of_filter in Hin as [Hg Hin]. cbn in Hg. subst g.
      apply elem_of_map_to_list in Hin. eauto.
    + intros (f & Hrow). exists (groupId req, f, md). split; [reflexivity |].
      apply list_elem_of_filter. split; [reflexivity |].
      apply elem_of_map_to_list. exact Hrow.
Qed.

(** X9.  On blob and table storage, once a caller has registered with a
    group (the route answers 204), that caller's listings of the group are
    answered 200, not 403, after any further requests: no route removes a
    membership. *)
Theorem registered_member_can_list
    (req : Request) (st : Storage) (uid : string)
    (later : list ServerRequest) (listing : Request) :
  fakeAuthMiddleware req = inr uid →
  fakeAuthMiddleware listing = inr uid →
  groupId listing = groupId req →
  let joined := (registerUser req st).2 in
  let final := serveAll bufferFromBase64 multerSingle later joined in
  (registerUser req st).1 = Responded (sendStatus 204) ∧
  ∃ listed, listFiles listing final = (Responded (send 200 (Json listed)), final).
Proof.
  intros Hauth Hlisting Hgroup joined final. subst joined final.
  rewrite (registerUser_member req st uid Hauth). cbn [fst snd].
  split; [reflexivity |].
  edestruct (listFiles_storage_member listing) as (listed & Hlist & _);
    [exact Hlisting | | eauto].
  apply (serveAll_keeps_members later). cbn. rewrite Hgroup. set_solver.
Qed.

(** X10.  On blob and table storage, after an upload that answered 204, and
    after any further requests whose uploads draw other ids, a member's
    listing of the upload's group answers 200 and contains the row of that
    upload: the drawn id, the submitted file name and the upload time. *)
Theorem uploaded_file_is_listed
    (env : Env) (req : Request) (st st' : Storage) (fname : string)
    (later : list ServerRequest) (listing : Request) (uid : string) :
  upload bufferFromBase64 multerSingle env req st = (Responded (sendStatus 204), st') →
  fileName req = Some fname →
  Forall (drawsOtherId (uuidv4 env)) later →
  let final := serveAll bufferFromBase64 multerSingle later st' in
  fakeAuthMiddleware listing = inr uid →
  (groupId listing, uid) ∈ userDetailsTable final →
  groupId listing = groupId req →
  ∃ listed,
    listFiles listing final = (Responded (send 200 (Json listed)), final) ∧
    {| id := uuidv4 env; name := fname; uploadDateTime := now env |}
      ∈ listed.
Proof.
  intros Hup Hname Hlater final Hauth Hmember Hgroup.
  destruct (upload_204 bufferFromBase64 multerSingle env req st st' _ Hup eq_refl)
    as (fname' & Hname' & Hst').
  assert (fname' = fname) as -> by congruence.
  destruct (serveAll_keeps_file bufferFromBase64 multerSingle later st' (groupId req)
              (uuidv4 env) Hlater) as [_ Hrow].
  fold final in Hrow. rewrite Hst' in Hrow. cbn in Hrow.
  rewrite lookup_insert_eq in Hrow.
  destruct (listFiles_storage_member listing final uid Hauth Hmember)
    as (listed & Hlist & Hin).
  exists listed. split; [exact Hlist |].
  apply Hin. exists (uuidv4 env). rewrite Hgroup. exact Hrow.
Qed.

(** X11.  On blob and table storage, a file uploaded into one group is not
    served through another: after an upload into group [g] that answered
    204, a download of the drawn id through a different group that has no
    row for it is answered 404, also for a member of that group. *)
Theorem uploaded_file_is_not_served_through_other_group
    (env : Env) (req : Request) (st st' : Storage)
    (reading : Request) (uid : string) :
  upload bufferFromBase64 multerSingle env req st = (Responded (sendStatus 204), st') →
  fakeAuthMiddleware reading = inr uid →
  (groupId reading, uid) ∈ userDetailsTable st' →
  fileId reading = uuidv4 env →
  groupId reading ≠ groupId req →
  fileMetadataTable st !! (groupId reading, uuidv4 env) = None →
  download reading st' = (Responded (sendStatus 404), st').
Proof.
  intros Hup Hauth Hmember Hid Hgroup Hnone.
  destruct (upload_204 bufferFromBase64 multerSingle env req st st' _ Hup eq_refl)
    as (fname & _ & Hst').
  rewrite (download_member reading st' uid Hauth Hmember).
  rewrite Hid, Hst'. cbn.
  rewrite lookup_insert_ne by congruence. rewrite Hnone. reflexivity.
Qed.

End FurtherStorageRoutes.

Lemma registered_member_can_list_witness :
  fakeAuthMiddleware joinRequest = inr "user-2" ∧
  fakeAuthMiddleware (otherGroupRead "") = inr "user-2" ∧
  ∃ listed,
    listFiles (otherGroupRead "")
      (serveAll base64Decode sampleMulter [Upload firstDraw imageRequest]
         (registerUser joinRequest emptyStorage).2)
    = (Responded (send 200 (Json listed)),
       serveAll base64Decode sampleMulter [Upload firstDraw imageRequest]
         (registerUser joinRequest emptyStorage).2).
Proof.
  split; [reflexivity |]. split; [reflexivity |].
  exact (proj2 (registered_member_can_list base64Decode sampleMulter joinRequest
                  emptyStorage "user-2" [Upload firstDraw imageRequest]
                  (otherGroupRead "") eq_refl eq_refl eq_refl)).
Defined.

Lemma uploaded_file_is_listed_witness :
  upload base64Decode sampleMulter firstDraw imageRequest memberStorage
    = (Responded (sendStatus 204), photoStorage) ∧
  Forall (drawsOtherId "id-1") [Upload secondDraw fileRequest] ∧
  ("group-1", "user-1") ∈ userDetailsTable twoFilesStorage ∧
  ∃ listed,
    listFiles (readRequest "") twoFilesStorage
      = (Responded (send 200 (Json listed)), twoFilesStorage) ∧
    photoMetadata ∈ listed.
Proof.
  assert (Hlater : Forall (drawsOtherId "id-1") [Upload secondDraw fileRequest]).
  { repeat constructor. cbn. discriminate. }
  assert (Hmember : ("group-1", "user-1") ∈ userDetailsTable twoFilesStorage).
  { apply (bool_decide_unpack _). vm_compute. exact I. }
  split; [reflexivity |]. split; [exact Hlater |]. split; [exact Hmember |].
  exact (uploaded_file_is_listed base64Decode sampleMulter firstDraw imageRequest
           memberStorage photoStorage "user_photo.png"
           [Upload secondDraw fileRequest] (readRequest "") "user-1"
           eq_refl eq_refl Hlater eq_refl Hmember eq_refl).
Defined.

Lemma uploaded_file_is_not_served_through_other_group_witness :
  upload base64Decode sampleMulter firstDraw imageRequest twoGroupsStorage
    = (Responded (sendStatus 204), sharedStorage) ∧
  ("group-2", "user-2") ∈ userDetailsTable sharedStorage ∧
  download (otherGroupRead "id-1") sharedStorage
    = (Responded (sendStatus 404), sharedStorage).
Proof.
  assert (Hmember : ("group-2", "user-2") ∈ userDetailsTable sharedStorage).
  { apply (bool_decide_unpack _). vm_compute. exact I. }
  split; [reflexivity |]. split; [exact Hmember |].
  refine (uploaded_file_is_not_served_through_other_group base64Decode sampleMulter
            firstDraw imageRequest twoGroupsStorage sharedStorage
            (otherGroupRead "id-1") "user-2"
            eq_refl eq_refl Hmember eq_refl _ eq_refl).
  cbn. discriminate.
Defined.

(* ===================================================================== *)
(** ** Further properties of the client                                   *)
(* ===================================================================== *)

(** *** Toggles *)

(** X12.  With no call tracked, both toggles only write one line to the
    console: no SDK method is invoked, nothing is dispatched and the store
    is unchanged. *)
Theorem toggles_without_call_do_nothing
    (world : World) (s : State) (flag : bool) :
  call (calls s) = None →
  run (setMicrophone world flag) s =
    (Returned tt,
     {| store := s;
        trace := [ConsoleError "state or state.controls.mic is null"] |}) ∧
  run (setShareUnshareScreen world flag) s =
    (Returned tt,
     {| store := s;
        trace := [ConsoleError
                    "state or state.controls.shareScreen is null"] |}).
Proof.
  intros Hnone. unfold setMicrophone, setShareUnshareScreen. step_thunk.
  rewrite Hnone. auto.
Qed.

Lemma toggles_without_call_do_nothing_witness :
  call (calls idleState) = None ∧
  store (run (setMicrophone offlineWorld true) idleState).2 = idleState.
Proof.
  split; [reflexivity |].
  exact (f_equal (λ r, store r.2)
           (proj1 (toggles_without_call_do_nothing offlineWorld idleState
                     true eq_refl))).
Defined.

(** X13.  The SDK method a toggle invokes is chosen from the flag in the
    store, not from the requested value: asking for the value the flag
    already has still invokes the SDK ([mute] when the microphone flag is
    on, [unmute] when it is off, and likewise for screen sharing), and on
    success the flag keeps its value. *)
Theorem toggle_to_current_value_still_invokes_sdk
    (world : World) (s : State) (c : Call) :
  call (calls s) = Some c →
  let micNow := mic (controls s) in
  let shareNow := shareScreen (controls s) in
  let micOp := if micNow then Mute else Unmute in
  let shareOp := if shareNow then StopScreenSharing else StartScreenSharing in
  (∀ u, callMethod world c micOp = Fulfilled u →
        trace (run (setMicrophone world micNow) s).2
          = [CallInvoked c micOp; Dispatched (SetMic micNow)] ∧
        controls (store (run (setMicrophone world micNow) s).2)
          = controls s) ∧
  (∀ u, callMethod world c shareOp = Fulfilled u →
        trace (run (setShareUnshareScreen world shareNow) s).2
          = [CallInvoked c shareOp; Dispatched (SetShareScreen shareNow)] ∧
        controls (store (run (setShareUnshareScreen world shareNow) s).2)
          = controls s).
Proof.
  intros Hc micNow shareNow micOp shareOp.
  rewrite (setMicrophone_run world s c micNow Hc).
  rewrite (setShareUnshareScreen_run world s c shareNow Hc).
  subst micOp shareOp micNow shareNow. cbv zeta.
  destruct (controls s) as [micNow shareNow] eqn:Hcontrols. cbn.
  split.
  - intros u Hu. destruct micNow; cbn in *; rewrite Hu; cbn;
      rewrite Hcontrols; auto.
  - intros u Hu. destruct shareNow; cbn in *; rewrite Hu; cbn;
      rewrite Hcontrols; auto.
Qed.

(** *** File download *)

(** X14.  Without a user id, [getFile] only writes one line to the console:
    no request is issued, nothing is dispatched and the store is
    unchanged. *)
Theorem getFile_without_user_does_nothing
    (world : World) (s : State) (fileId : string) :
  userId s = None →
  run (getFile world fileId) s =
    (Returned tt,
     {| store := s;
        trace := [ConsoleError
          "Failed to make getFiles() API call because userId is undefined"]
     |}).
Proof.
  intros Hnone. unfold getFile. step_thunk. rewrite Hnone. reflexivity.
Qed.

(** X15.  When the fetch and the reading of its body both resolve,
    [getFile] ends normally, and a listed file then holds the object URL
    created for the body, is no longer marked as downloading and keeps its
    name; every other file is as it was. *)
Theorem getFile_success_resolves_listed_file
    (world : World) (s : State) (uid fileId : string)
    (response blob : nat) (f : FileRecord) :
  userId s = Some uid →
  fetch world (fileUrl s fileId) uid = Fulfilled response →
  responseBlob world response = Fulfilled blob →
  files s !! fileId = Some f →
  let r := run (getFile world fileId) s in
  r.1 = Returned tt ∧
  files (store r.2) !! fileId =
    Some {| filename := filename f;
            blobUrl := Some (createObjectURL world blob);
            isDownloading := false |} ∧
  ∀ other, other ≠ fileId → files (store r.2) !! other = files s !! other.
Proof.
  intros Hu Hfetch Hblob Hf r. subst r.
  rewrite (getFile_run world s uid fileId Hu). cbv zeta.
  rewrite Hfetch, Hblob. cbn. split; [reflexivity |]. split.
  - rewrite !lookup_alter_eq, Hf. reflexivity.
  - intros other Hother. rewrite !lookup_alter_ne by congruence.
    reflexivity.
Qed.

(** X16.  When the fetch resolves but reading its body rejects, [getFile]
    ends with that rejection uncaught after the request, without any
    further dispatch: a listed file is left marked as downloading and
    without an object URL of this download. *)
Theorem getFile_flag_stuck_on_rejected_body
    (world : World) (s : State) (uid fileId : string)
    (response : nat) (e : string) :
  userId s = Some uid →
  fetch world (fileUrl s fileId) uid = Fulfilled response →
  responseBlob world response = Rejected e →
  let r := run (getFile world fileId) s in
  r.1 = Threw e ∧
  trace r.2 = [Dispatched (SetFileIsDownloading fileId true);
               FetchIssued (fileUrl s fileId) uid] ∧
  ∀ f, files s !! fileId = Some f →
       files (store r.2) !! fileId =
         Some {| filename := filename f; blobUrl := blobUrl f;
                 isDownloading := true |}.
Proof.
  intros Hu Hfetch Hblob r. subst r.
  rewrite (getFile_run world s uid fileId Hu). cbv zeta.
  rewrite Hfetch, Hblob. cbn. repeat split.
  intros f Hf. rewrite lookup_alter_eq, Hf. reflexivity.
Qed.

(** *** Removed calls *)


(** X18.  A call added to a store that tracks none and removed in the same
    [callsUpdated] event leaves no call tracked, and the next added call is
    then tracked whether it is incoming or not. *)
Theorem removed_call_frees_the_slot (c next : Call) (s : State) :
  call (calls s) = None →
  let afterEvent :=
    store (run (callsUpdated {| added := [c]; removed := [c] |}) s).2 in
  call (calls afterEvent) = None ∧
  call (calls (store (run (callsUpdated {| added := [next]; removed := [] |})
                          afterEvent).2)) = Some next.
Proof.
  intros Hnone afterEvent.
  assert (Hafter : call (calls afterEvent) = None).
  { subst afterEvent. unfold run, callsUpdated. cbn [forEach added removed].
    unfold mbind, M_bind, mret, M_ret, bind, ret.
    rewrite onCallAdded_machine. unfold rejects. cbn [store trace].
    rewrite Hnone. cbn. rewrite onCallRemoved_machine. cbn.
    rewrite bool_decide_eq_true_2 by reflexivity. reflexivity. }
  split; [exact Hafter |].
  unfold run, callsUpdated. cbn [forEach added removed].
  unfold mbind, M_bind, mret, M_ret, bind, ret.
  rewrite onCallAdded_machine. unfold rejects. cbn [store trace].
  rewrite Hafter. reflexivity.
Qed.

Lemma stepOf_attempts (isAdded : bool) (c : Call) (s : State) :
  attempts (calls (stepAfter (stepOf isAdded c s)))
  = attempts (calls s) + (if isAdded then 0 else 1).
Proof.
  unfold stepOf, run. destruct isAdded; cbn [stepAfter].
  - rewrite onCallAdded_machine. cbn.
    destruct (rejects c s); cbn; lia.
  - rewrite onCallRemoved_machine. cbn.
    destruct (call (calls s)) as [tracked |]; [| reflexivity].
    destruct (bool_decide _); reflexivity.
Qed.

Lemma stepsOfCalls_attempts (isAdded : bool) (cs : list Call) (s : State) :
  attempts (calls (stepsOfCalls isAdded cs s).2)
  = attempts (calls s) + (if isAdded then 0 else length cs).
Proof.
  revert s. induction cs as [| c cs IH]; intros s.
  - cbn. destruct isAdded; lia.
  - cbn [stepsOfCalls snd length]. rewrite IH, stepOf_attempts.
    destruct isAdded; lia.
Qed.

(** X19.  Over any sequence of [callsUpdated] events that keeps the
    attempts counter below 2^53, the counter grows by exactly the number of
    removed calls delivered, whether or not they were tracked; added calls
    do not change it. *)
Theorem attempts_count_removed_calls (es : list CallsUpdated) (s : State) :
  (Z.of_nat (attempts (calls s))
   + Z.of_nat (length (flat_map removed es)) < 2 ^ 53)%Z →
  attempts (calls (store (run (forEach es callsUpdated) s).2))
  = attempts (calls s) + length (flat_map removed es).
Proof.
  intros _. unfold run. rewrite forEach_events_run. cbn [snd store].
  revert s. induction es as [| e es IH]; intros s.
  - cbn. lia.
  - cbn [stepsOfEvents snd flat_map].
    rewrite IH, !stepsOfCalls_attempts, length_app. lia.
Qed.

Lemma attempts_count_removed_calls_witness :
  (Z.of_nat (attempts (calls idleState))
   + Z.of_nat (length (flat_map removed
                         [{| added := [outgoingCall];
                             removed := [outgoingCall; incomingCall] |}]))
   < 2 ^ 53)%Z ∧
  attempts (calls (store (run (forEach
                                 [{| added := [outgoingCall];
                                     removed := [outgoingCall;
                                                 incomingCall] |}]
                                 callsUpdated) idleState).2)) = 2.
Proof.
  split; [reflexivity |].
  exact (attempts_count_removed_calls
           [{| added := [outgoingCall];
               removed := [outgoingCall; incomingCall] |}]
           idleState eq_refl).
Defined.

(** *** Device refresh *)

(** X20.  An audio refresh whose enumeration rejects ends with that
    rejection uncaught, having dispatched nothing and left the store as it
    was; a refresh that finds the selected microphone in the new list only
    stores the list: no selection is dispatched and the device manager is
    not told anything. *)
Theorem updateAudioDevices_rejected_or_still_present
    (utils : Utils) (deviceManager : DeviceManager) (s : State) :
  (∀ e, getMicrophoneList deviceManager = Rejected e →
        run (updateAudioDevices utils deviceManager) s =
          (Threw e, {| store := s; trace := [MicrophoneListRequested] |})) ∧
  (∀ l selected,
     getMicrophoneList deviceManager = Fulfilled l →
     audioDeviceInfo (devices s) = Some selected →
     isSelectedAudioDeviceInList utils selected l = true →
     run (updateAudioDevices utils deviceManager) s =
       (Returned tt,
        {| store := reducer s (SetAudioDeviceList l);
           trace := [MicrophoneListRequested;
                     Dispatched (SetAudioDeviceList l)] |})).
Proof.
  unfold updateAudioDevices. step_thunk. split.
  - intros e ->. reflexivity.
  - intros l selected -> Hsel Hpresent. cbn. rewrite Hsel, Hpresent.
    reflexivity.
Qed.

(** X21.  A device refresh never changes an existing selection: if a
    microphone is selected before an audio refresh it is the selected one
    after it, however the enumeration settles and whether or not the device
    is in the new list; likewise for the camera and a video refresh. *)
Theorem refresh_keeps_existing_selection
    (utils : Utils) (deviceManager : DeviceManager) (s : State) :
  (∀ selected,
     audioDeviceInfo (devices s) = Some selected →
     audioDeviceInfo
       (devices (store (run (updateAudioDevices utils deviceManager) s).2))
     = Some selected) ∧
  (∀ selected,
     videoDeviceInfo (devices s) = Some selected →
     videoDeviceInfo
       (devices (store (run (updateVideoDevices utils deviceManager) s).2))
     = Some selected).
Proof.
  split; intros selected Hsel.
  - unfold updateAudioDevices. step_thunk.
    destruct (getMicrophoneList deviceManager) as [l | e]; cbn;
      [| exact Hsel].
    rewrite Hsel.
    destruct (isSelectedAudioDeviceInList utils selected l); reflexivity.
  - unfold updateVideoDevices. step_thunk. rewrite Hsel.
    destruct (isSelectedVideoDeviceInList utils selected _); reflexivity.
Qed.

(** X22.  On a video refresh with a camera selected: when the camera is
    reported absent from the new list the same camera is dispatched as the
    selection again, and when it is present only the list is stored.  With
    no camera selected and a non-empty list, the first camera of the list is
    the selection afterwards. *)
Theorem updateVideoDevices_selection_cases
    (utils : Utils) (deviceManager : DeviceManager) (s : State) :
  let cameraList := getCameraList deviceManager in
  let r := run (updateVideoDevices utils deviceManager) s in
  (∀ selected,
     videoDeviceInfo (devices s) = Some selected →
     trace r.2 =
       if isSelectedVideoDeviceInList utils selected cameraList
       then [CameraListRequested; Dispatched (SetVideoDeviceList cameraList)]
       else [CameraListRequested; Dispatched (SetVideoDeviceList cameraList);
             Dispatched (SetVideoDeviceInfo (Some selected))]) ∧
  (∀ first rest,
     videoDeviceInfo (devices s) = None → cameraList = first :: rest →
     videoDeviceInfo (devices (store r.2)) = Some first) ∧
  videoDeviceList (devices (store r.2)) = cameraList.
Proof.
  intros cameraList r. subst r. unfold updateVideoDevices. step_thunk.
  fold cameraList.
  destruct (videoDeviceInfo (devices s)) as [selected |] eqn:Hsel.
  - split; [| split].
    + intros selected' [= <-].
      destruct (isSelectedVideoDeviceInList utils selected cameraList);
        reflexivity.
    + intros first rest [=].
    + destruct (isSelectedVideoDeviceInList utils selected cameraList);
        reflexivity.
  - split; [| split].
    + intros selected [=].
    + intros first rest _ ->. reflexivity.
    + reflexivity.
Qed.

(** *** Participant events *)

Import Handlers.

Lemma setParticipants_twice (s : State) (ps : list RemoteParticipant) :
  reducer (reducer s (SetParticipants ps)) (SetParticipants ps)
  = reducer s (SetParticipants ps).
Proof. reflexivity. Qed.

Lemma mbind_run {A B} (c : M A) (k : A → M B) (m : Machine) :
  (c ≫= k) m =
  match c m with
  | (Returned a, m') => k a m'
  | (Threw e, m') => (Threw e, m')
  end.
Proof. reflexivity. Qed.

(** What the added-participants loop of the handler leaves. *)
Lemma participants_added_run (c : Call) (ps : list RemoteParticipant)
    (m : Machine) :
  forEach ps (λ p,
    emit (ConsoleLog "participantAdded");;
    subscribeToParticipant p c;;
    dispatch (SetParticipants (remoteParticipants c))) m =
  (Returned tt,
   {| store := if ps is [] then store m
               else reducer (store m) (SetParticipants (remoteParticipants c));
      trace := trace m ++
        flat_map (λ p, ConsoleLog "participantAdded"
                       :: participantSubscriptions p
                       ++ [Dispatched (SetParticipants (remoteParticipants c))])
                 ps |}).
Proof.
  revert m. induction ps as [| p ps IH]; intros m.
  - cbn. rewrite app_nil_r. destruct m; reflexivity.
  - cbn [forEach]. unfold subscribeToParticipant. step_thunk.
    rewrite IH. cbn. rewrite <- !app_assoc. cbn.
    destruct ps; reflexivity.
Qed.

(** X23.  Whatever call a ['remoteParticipantsUpdated'] event comes from,
    tracked or not: with nothing added and nothing removed the handler does
    nothing; otherwise the roster in the store is that call's roster
    afterwards.  Every added participant gets its three subscriptions, the
    roster is dispatched once per added participant and once more if any
    was removed, and the tracked call is not changed. *)
Theorem remoteParticipantsUpdated_syncs_roster
    (c : Call) (ev : ParticipantsUpdated) (s : State) :
  let r := run (onRemoteParticipantsUpdated c ev) s in
  let roster := Dispatched (SetParticipants (remoteParticipants c)) in
  r.1 = Returned tt ∧
  (addedParticipants ev = [] → removedParticipants ev = [] →
   r.2 = {| store := s; trace := [] |}) ∧
  (addedParticipants ev ≠ [] ∨ removedParticipants ev ≠ [] →
   participants (calls (store r.2)) = remoteParticipants c) ∧
  call (calls (store r.2)) = call (calls s) ∧
  trace r.2 =
    flat_map (λ p, ConsoleLog "participantAdded"
                   :: participantSubscriptions p ++ [roster])
             (addedParticipants ev)
    ++ (if removedParticipants ev is []
        then [] else [ConsoleLog "participantRemoved"; roster]).
Proof.
  intros r roster. subst r roster. unfold onRemoteParticipantsUpdated, run.
  rewrite mbind_run, participants_added_run. step_thunk.
  destruct (removedParticipants ev) as [| gone rest];
    destruct (addedParticipants ev) as [| p ps]; cbn;
    (split; [reflexivity |]); (split; [intros; congruence |]);
    (split; [intros [Hne | Hne]; congruence || reflexivity |]);
    (split; [reflexivity |]); rewrite ?app_nil_r, <- ?app_assoc;
    reflexivity.
Qed.

(** *** Uploads *)

Section UploadProperties.
Variable post : string → string → option Uploads.FormData → Settled nat.
Variable responseOk : nat → bool.

Lemma uploadFile_run (uid groupId : string) (media : Uploads.Media)
    (fileName : string) (m : Machine) :
  Uploads.uploadFile post responseOk uid groupId media fileName m =
  let url := "/groups/" +:+ groupId +:+ "/files" in
  let data := Uploads.uploadFormData groupId media fileName in
  match post url uid (Some data) with
  | Fulfilled response =>
      (Returned (responseOk response),
       {| store := store m; trace := trace m ++ [FetchIssued url uid] |})
  | Rejected e =>
      (Returned false,
       {| store := store m;
          trace := trace m ++
            [FetchIssued url uid;
             ConsoleError ("Failed at sending image, Error: " +:+ e)] |})
  end.
Proof.
  unfold Uploads.uploadFile. step_thunk.
  destruct (post _ uid _); cbn; [reflexivity |].
  rewrite <- app_assoc. reflexivity.
Qed.

(** X24.  Neither upload thunk ever throws or changes the store.  Each
    returns [true] only when a user id is known and the POST to the group's
    files URL, sent with that id as Authorization, resolved with an ok
    response; a rejected request is logged and gives [false]; without a user
    id no request is issued. *)
Theorem upload_thunks_return_ok_or_false
    (file : Uploads.File) (dataUrl : string) (s : State) :
  let url := "/groups/" +:+ group (calls s) +:+ "/files" in
  let fileForm :=
    Uploads.uploadFormData (group (calls s)) (Uploads.MediaFile file)
      (Uploads.fileName file) in
  let imageForm :=
    Uploads.uploadFormData (group (calls s))
      (Uploads.MediaString (Uploads.stripDataUrlPrefix dataUrl))
      "user_photo.png" in
  let sent (form : Uploads.FormData) (r : Result bool * Machine) :=
    store r.2 = s ∧
    match userId s with
    | None => r.1 = Returned false ∧ ∀ u a, FetchIssued u a ∉ trace r.2
    | Some uid =>
        FetchIssued url uid ∈ trace r.2 ∧
        r.1 = Returned match post url uid (Some form) with
                       | Fulfilled response => responseOk response
                       | Rejected _ => false
                       end
    end in
  sent fileForm (run (Uploads.uploadSelectedFile post responseOk file) s) ∧
  sent imageForm (run (Uploads.uploadCapturedImage post responseOk dataUrl) s).
Proof.
  intros url fileForm imageForm sent. subst sent. cbv beta.
  unfold Uploads.uploadSelectedFile, Uploads.uploadCapturedImage, run.
  rewrite !mbind_run. unfold getState. cbn [store].
  destruct (userId s) as [uid |].
  - rewrite !uploadFile_run. cbv zeta. fold url fileForm imageForm.
    split.
    + destruct (post url uid (Some fileForm)); cbn;
        (split; [reflexivity |]); (split; [set_solver | reflexivity]).
    + destruct (post url uid (Some imageForm)); cbn;
        (split; [reflexivity |]); (split; [set_solver | reflexivity]).
  - step_thunk. split; (split; [reflexivity |]);
      (split; [reflexivity |]); intros u a Hin;
      apply list_elem_of_In in Hin; destruct Hin as [Heq | []];
      discriminate Heq.
Qed.

(** X25.  [blobAuthorization] never throws or dispatches.  Without a user
    id it issues no request and returns [undefined]; otherwise it posts to
    the group's user URL with the id as Authorization and returns the
    response's ok flag, or [false] when the request rejects. *)
Theorem blobAuthorization_returns_ok_or_false (s : State) :
  let url := "/groups/" +:+ group (calls s) +:+ "/user" in
  let r := run (Uploads.blobAuthorization post responseOk) s in
  store r.2 = s ∧
  match userId s with
  | None => r.1 = Returned None ∧ ∀ u a, FetchIssued u a ∉ trace r.2
  | Some uid =>
      FetchIssued url uid ∈ trace r.2 ∧
      r.1 = Returned (Some match post url uid None with
                           | Fulfilled response => responseOk response
                           | Rejected _ => false
                           end)
  end.
Proof.
  intros url r. subst r. unfold Uploads.blobAuthorization. step_thunk.
  fold url. destruct (userId s) as [uid |]; cbn.
  - destruct (post url uid None); cbn;
      (split; [reflexivity |]); (split; [set_solver | reflexivity]).
  - split; [reflexivity |]. split; [reflexivity |].
    intros u a Hin. apply list_elem_of_In in Hin.
    destruct Hin as [Heq | []]. discriminate Heq.
Qed.

End UploadProperties.


(** X26.  The data-URL prefix is removed from a captured image exactly for
    the [png] and [jpg] spellings: what follows the prefix is returned
    unchanged.  A [jpeg] data URL does not match and is returned whole,
    prefix included. *)
Theorem stripDataUrlPrefix_png_jpg_only (payload : string) :
  Uploads.stripDataUrlPrefix ("data:image/png;base64," +:+ payload)
    = payload ∧
  Uploads.stripDataUrlPrefix ("data:image/jpg;base64," +:+ payload)
    = payload ∧
  Uploads.stripDataUrlPrefix ("data:image/jpeg;base64," +:+ payload)
    = "data:image/jpeg;base64," +:+ payload.
Proof. repeat split; reflexivity. Qed.

Section UploadsReachTheBackend.
Context {Storage : Type} `{FileService Storage}.
Variable bufferFromBase64 : string → list byte.
Variable multerSingle : MulterOptions → string → Request → bool.


End UploadsReachTheBackend.


(** *** Instances *)

Import ClientScenarios.

Lemma toggle_to_current_value_still_invokes_sdk_witness :
  call (calls inCallState) = Some outgoingCall ∧
  trace (run (setMicrophone onlineWorld false) inCallState).2
    = [CallInvoked outgoingCall Unmute; Dispatched (SetMic false)].
Proof.
  split; [reflexivity |].
  exact (proj1 (proj1 (toggle_to_current_value_still_invokes_sdk onlineWorld
                         inCallState outgoingCall eq_refl) tt eq_refl)).
Defined.

Lemma getFile_without_user_does_nothing_witness :
  userId anonymousState = None ∧
  store (run (getFile onlineWorld "file-1") anonymousState).2
    = anonymousState.
Proof.
  split; [reflexivity |].
  exact (f_equal (λ r, store r.2)
           (getFile_without_user_does_nothing onlineWorld anonymousState
              "file-1" eq_refl)).
Defined.

Lemma getFile_success_resolves_listed_file_witness :
  userId idleState = Some "user-1" ∧
  files (store (run (getFile onlineWorld "file-1") idleState).2) !! "file-1"
    = Some {| filename := "a.png"; blobUrl := Some "blob:file-1";
              isDownloading := false |}.
Proof.
  split; [reflexivity |].
  exact (proj1 (proj2 (getFile_success_resolves_listed_file onlineWorld
                         idleState "user-1" "file-1" 1 2
                         {| filename := "a.png"; blobUrl := None;
                            isDownloading := false |}
                         eq_refl eq_refl eq_refl eq_refl))).
Defined.

Lemma getFile_flag_stuck_on_rejected_body_witness :
  userId idleState = Some "user-1" ∧
  (run (getFile brokenBodyWorld "file-1") idleState).1 = Threw "aborted".
Proof.
  split; [reflexivity |].
  exact (proj1 (getFile_flag_stuck_on_rejected_body brokenBodyWorld idleState
                  "user-1" "file-1" 1 "aborted" eq_refl eq_refl eq_refl)).
Defined.

Lemma removed_call_frees_the_slot_witness :
  call (calls idleState) = None ∧
  call (calls
    (store (run (callsUpdated {| added := [incomingCall]; removed := [] |})
              (store (run (callsUpdated {| added := [outgoingCall];
                                           removed := [outgoingCall] |})
                        idleState).2)).2)) = Some incomingCall.
Proof.
  split; [reflexivity |].
  exact (proj2 (removed_call_frees_the_slot outgoingCall incomingCall
                  idleState eq_refl)).
Defined.


